(** * Methylation preprocessing: a shallow embedding of [preprocess]

    The development follows the two copies of the pipeline,
    [DNAm/python/preprocess.py] and [CH3/python/preprocess.py].  Their
    statements are the same up to the ratios, except that the copy under
    [DNAm/] fills every sample column from the one bead table it is given,
    while the copy under [CH3/] loads its manifests and bead tables itself
    and pairs the bead tables with the sample columns by [zip].  The
    docstring of the copy under [DNAm/] is not indented, so Python rejects
    that file as it stands; its statements are modelled as they run once
    the docstring is indented.

    Numbers.  pandas and numpy compute on IEEE-754 doubles.  The special
    values that carry the pipeline's missing-value semantics (NaN, and the
    two infinities produced by a division by zero) are modelled explicitly;
    finite values are modelled by real numbers, so rounding and overflow of
    finite arithmetic are idealised away and the two signed zeros are
    identified.

    Tables.  A pandas DataFrame whose columns are the samples is a list of
    columns, each column the list of its cells in row order.  Row labels are
    modelled where the code selects rows by label; the labels of the control
    manifest are taken to be distinct.  An assignment through
    [frame[column].loc[rows] = values] writes into the frame, as pandas does
    without copy-on-write; [frame[column].loc[rows]] read into a variable is
    a new series.

    Not modelled: the rows of the summary table computed from control
    beads. *)

From Stdlib Require Import Reals Lra Psatz List Ascii String ZArith Bool Arith Lia.
Import ListNotations.
Open Scope R_scope.

(** ** IEEE doubles with exact finite arithmetic *)

Module F64.

Inductive float64 : Type :=
| NaN
| PInf
| NInf
| Fin (x : R).

Definition isnan (a : float64) : bool :=
  match a with NaN => true | _ => false end.

Definition isinf (a : float64) : bool :=
  match a with PInf | NInf => true | _ => false end.

Definition Rltb (x y : R) : bool := if Rlt_dec x y then true else false.
Definition Rleb (x y : R) : bool := if Rle_dec x y then true else false.
Definition Reqb (x y : R) : bool := if Req_dec_T x y then true else false.

Definition neg (a : float64) : float64 :=
  match a with
  | NaN => NaN
  | PInf => NInf
  | NInf => PInf
  | Fin x => Fin (- x)
  end.

Definition add (a b : float64) : float64 :=
  match a, b with
  | NaN, _ | _, NaN => NaN
  | PInf, NInf | NInf, PInf => NaN
  | PInf, _ | _, PInf => PInf
  | NInf, _ | _, NInf => NInf
  | Fin x, Fin y => Fin (x + y)
  end.

Definition sub (a b : float64) : float64 := add a (neg b).

(** The infinity of the sign of [x], for [x] a non-zero finite factor. *)
Definition inf_of_sign (x : R) : float64 :=
  if Rltb 0 x then PInf else NInf.

Definition mul (a b : float64) : float64 :=
  match a, b with
  | NaN, _ | _, NaN => NaN
  | PInf, PInf | NInf, NInf => PInf
  | PInf, NInf | NInf, PInf => NInf
  | PInf, Fin y | Fin y, PInf => if Reqb y 0 then NaN else inf_of_sign y
  | NInf, Fin y | Fin y, NInf => if Reqb y 0 then NaN else inf_of_sign (- y)
  | Fin x, Fin y => Fin (x * y)
  end.

Definition div (a b : float64) : float64 :=
  match a, b with
  | NaN, _ | _, NaN => NaN
  | PInf, PInf | PInf, NInf | NInf, PInf | NInf, NInf => NaN
  | Fin _, PInf | Fin _, NInf => Fin 0
  | PInf, Fin y => if Rltb y 0 then NInf else PInf
  | NInf, Fin y => if Rltb y 0 then PInf else NInf
  | Fin x, Fin y =>
      if Reqb y 0
      then (if Reqb x 0 then NaN else inf_of_sign x)
      else Fin (x / y)
  end.

(** [a > b]; every comparison with NaN is false. *)
Definition gt (a b : float64) : bool :=
  match a, b with
  | NaN, _ | _, NaN => false
  | PInf, PInf => false
  | PInf, _ => true
  | _, PInf => false
  | NInf, _ => false
  | Fin _, NInf => true
  | Fin x, Fin y => Rltb y x
  end.

(** [a <= b]; every comparison with NaN is false. *)
Definition le (a b : float64) : bool :=
  match a, b with
  | NaN, _ | _, NaN => false
  | _, PInf => true
  | NInf, _ => true
  | PInf, _ => false
  | Fin _, NInf => false
  | Fin x, Fin y => Rleb x y
  end.

Definition sqrt (a : float64) : float64 :=
  match a with
  | NaN => NaN
  | PInf => PInf
  | NInf => NaN
  | Fin x => if Rltb x 0 then NaN else Fin (R_sqrt.sqrt x)
  end.

(** [x ** 2] *)
Definition square (a : float64) : float64 := mul a a.

End F64.

Import F64.

(** ** Exceptions *)

Inductive error : Type :=
| AssertionError
| KeyError
| ValueError
| NameError.

Inductive result (A : Type) : Type :=
| Ok (a : A)
| Raise (e : error).

Arguments Ok {A} a.
Arguments Raise {A} e.

Definition bind {A B : Type} (m : result A) (k : A -> result B) : result B :=
  match m with
  | Ok a => k a
  | Raise e => Raise e
  end.

Notation "x <- m ;; k" := (bind m (fun x => k))
  (at level 61, m at next level, right associativity).

(** Runs [f] on every element, left to right, stopping at the first
    exception: a [for] loop that rebuilds each column. *)
Fixpoint for_each {A B : Type} (f : A -> result B) (l : list A) : result (list B) :=
  match l with
  | [] => Ok []
  | a :: l' => b <- f a ;; bs <- for_each f l' ;; Ok (b :: bs)
  end.

(** ** numpy and pandas reductions *)

Module Stats.

Definition column : Type := list float64.
Definition matrix : Type := list column.

Definition dropna (l : column) : column := filter (fun x => negb (isnan x)) l.

Definition fsum (l : column) : float64 := fold_left add l (Fin 0).

(** [Series.sum()] and one row of [DataFrame.sum(axis=1)]: NaN is skipped,
    an all-NaN input sums to zero. *)
Definition nansum (l : column) : float64 := fsum (dropna l).

(** [Series.mean()]: mean of the values that are not NaN, NaN if there are
    none. *)
Definition series_mean (l : column) : float64 :=
  match dropna l with
  | [] => NaN
  | v => div (fsum v) (Fin (INR (List.length v)))
  end.

(** [Series.std()], [ddof=1]: NaN when fewer than two values are present. *)
Definition series_std (l : column) : float64 :=
  let v := dropna l in
  if (List.length v <=? 1)%nat then NaN
  else
    let avg := div (fsum v) (Fin (INR (List.length v))) in
    sqrt (div (fsum (map (fun x => square (sub avg x)) v))
              (Fin (INR (List.length v - 1)))).

(** [np.mean([a, b])]: no NaN skipping. *)
Definition np_mean2 (a b : float64) : float64 := div (add a b) (Fin 2).

(** [np.std([a, b])]: population standard deviation, no NaN skipping. *)
Definition np_std2 (a b : float64) : float64 :=
  let m := np_mean2 a b in
  sqrt (div (add (square (sub a m)) (square (sub b m))) (Fin 2)).

(** [Series.isna().mean()]: the fraction of cells that are NaN; the mean of
    an empty boolean series is NaN. *)
Definition isna_mean (l : column) : float64 :=
  match l with
  | [] => NaN
  | _ => Fin (INR (List.length (filter isnan l)) / INR (List.length l))
  end.

(** Row [i] of a matrix stored by columns. *)
Definition row_of (M : matrix) (i : nat) : column := map (fun c => nth i c NaN) M.

(** [M.sum(axis=1)] over [n] rows. *)
Definition row_sums (n : nat) (M : matrix) : column :=
  map (fun i => nansum (row_of M i)) (seq 0 n).

(** The rows of a series picked by a boolean mask. *)
Fixpoint select {A : Type} (mask : list bool) (l : list A) : list A :=
  match mask, l with
  | m :: mask', x :: l' => if m then x :: select mask' l' else select mask' l'
  | _, _ => []
  end.

(** [col.loc[rows] = vals]: the masked rows of [col] take the values of
    [vals] in order, the other rows keep theirs. *)
Fixpoint assign_where (mask : list bool) (col vals : column) : column :=
  match mask, col with
  | m :: mask', c :: col' =>
      if m then
        match vals with
        | v :: vals' => v :: assign_where mask' col' vals'
        | [] => c :: assign_where mask' col' []
        end
      else c :: assign_where mask' col' vals
  | _, _ => col
  end.

(** [col.loc[rows] = col.loc[rows] * k] *)
Fixpoint scale_where (mask : list bool) (k : float64) (col : column) : column :=
  match mask, col with
  | m :: mask', c :: col' =>
      (if m then mul c k else c) :: scale_where mask' k col'
  | _, _ => col
  end.

End Stats.

Import Stats.

(** ** Manifests and bead summaries *)

Module Tables.

Open Scope string_scope.

(** A row label: a position of a default [RangeIndex], or a string. *)
Inductive label : Type :=
| LInt (i : nat)
| LStr (s : string).

Definition label_eqb (a b : label) : bool :=
  match a, b with
  | LInt i, LInt j => Nat.eqb i j
  | LStr s, LStr t => String.eqb s t
  | _, _ => false
  end.

(** One row of the probe manifest as [read_manifests] loads it; [probe_id]
    is the unnamed first column of the file, ['Unnamed: 0']. *)
Record ProbeRow : Type := {
  probe_id : string;
  chr : string;
  pos : Z;
  ptype : string;
  address_a : Z;
  address_b : Z
}.

(** The probe table is a mutable object.  [read_manifests] returns it with
    the default [RangeIndex] and the column ['Unnamed: 0'];
    [set_index(['Unnamed: 0'], inplace=True)] makes that column the index
    and removes it from the columns. *)
Inductive ProbesIndex : Type :=
| RangeIndex
| NameIndex.

Record ProbesTable : Type := {
  p_index : ProbesIndex;
  p_rows : list ProbeRow
}.

(** [probes.index] *)
Definition probes_index (probes : ProbesTable) : list label :=
  match p_index probes with
  | RangeIndex => map LInt (seq 0 (List.length (p_rows probes)))
  | NameIndex => map (fun r => LStr (probe_id r)) (p_rows probes)
  end.

(** [probes.set_index(['Unnamed: 0'], inplace=True)]: the new content of the
    object, or [KeyError] when the column is not among the columns. *)
Definition set_index_unnamed0 (probes : ProbesTable) : result ProbesTable :=
  match p_index probes with
  | RangeIndex => Ok {| p_index := NameIndex; p_rows := p_rows probes |}
  | NameIndex => Raise KeyError
  end.

(** One row of a sample's bead summary, with the column names [load_data]
    gives it; the first column holds the bead address. *)
Record BeadRow : Type := {
  sample_id : Z;
  grn_n : Z;
  grn_mean : float64;
  grn_sd : float64;
  red_n : Z;
  red_mean : float64;
  red_sd : float64
}.

Definition BeadTable : Type := list BeadRow.

(** One row of the control manifest; [c_address] is its index. *)
Record ControlRow : Type := {
  c_address : Z;
  c_type : string;
  c_description : string
}.

(** [probes['type'] == t] *)
Definition type_mask (probes : ProbesTable) (t : string) : list bool :=
  map (fun r => String.eqb (ptype r) t) (p_rows probes).

(** [(probes[col].loc[probes['type'] == t]).index]: the row labels of the
    probes of type [t].  Whatever column is selected first, [.index] gives
    the labels of the rows, not the values of the column. *)
Definition index_of_type (probes : ProbesTable) (t : string) : list label :=
  select (type_mask probes t) (probes_index probes).

Definition ad_a_grn (probes : ProbesTable) : list label := index_of_type probes "I-Grn".
Definition ad_b_grn (probes : ProbesTable) : list label := index_of_type probes "I-Grn".
Definition ad_a_red (probes : ProbesTable) : list label := index_of_type probes "I-Red".
Definition ad_b_red (probes : ProbesTable) : list label := index_of_type probes "I-Red".
Definition ad_a_inf (probes : ProbesTable) : list label := index_of_type probes "II".

(** [data.loc[labels]] on the default [RangeIndex] of a bead table: a label
    that is not a row position of the table raises [KeyError]. *)
Definition data_loc (data : BeadTable) (labels : list label) : result (list BeadRow) :=
  for_each
    (fun l =>
       match l with
       | LInt i =>
           match nth_error data i with
           | Some r => Ok r
           | None => Raise KeyError
           end
       | LStr _ => Raise KeyError
       end)
    labels.

(** [data.set_index('sample_id').loc[con_ind]]: every row whose address is
    the label, for each label in turn; a label without a row raises
    [KeyError]. *)
Definition dataa_loc (data : BeadTable) (con_ind : list Z) : result (list BeadRow) :=
  rows <- for_each
            (fun a =>
               match filter (fun r => Z.eqb (sample_id r) a) data with
               | [] => Raise KeyError
               | m => Ok m
               end)
            con_ind ;;
  Ok (List.concat rows).

(** [DataFrame(np.nan, index=..., columns=...)] *)
Definition nan_matrix (nrows ncols : nat) : matrix :=
  repeat (repeat NaN nrows) ncols.

End Tables.

Import Tables.

(** ** The stages shared by the two copies of [preprocess] *)

Module Stages.

Open Scope string_scope.

(** [np.where(n >= min_beads, v, np.nan)] on one row *)
Definition where_ge (n min_beads : Z) (v : float64) : float64 :=
  if (min_beads <=? n)%Z then v else NaN.

(** [np.where(n > 0, v, np.nan)] on one row *)
Definition where_pos (n : Z) (v : float64) : float64 :=
  if (0 <? n)%Z then v else NaN.

(** *** Intensity extraction: the body of the loop over [intensities_A] *)
Definition fill_A (min_beads : Z) (probes : ProbesTable) (data : BeadTable)
    (col : column) : result column :=
  g <- data_loc data (ad_a_grn probes) ;;
  let col := assign_where (type_mask probes "I-Grn") col
               (map (fun r => where_ge (grn_n r) min_beads (grn_mean r)) g) in
  r <- data_loc data (ad_a_red probes) ;;
  let col := assign_where (type_mask probes "I-Red") col
               (map (fun r => where_ge (red_n r) min_beads (red_mean r)) r) in
  i <- data_loc data (ad_a_inf probes) ;;
  Ok (assign_where (type_mask probes "II") col
        (map (fun r => where_ge (grn_n r) min_beads (grn_mean r)) i)).

(** The body of the loop over [intensities_B]; the Type II line tests
    [red_n] and takes [grn_mean], as the source does. *)
Definition fill_B (min_beads : Z) (probes : ProbesTable) (data : BeadTable)
    (col : column) : result column :=
  g <- data_loc data (ad_b_grn probes) ;;
  let col := assign_where (type_mask probes "I-Grn") col
               (map (fun r => where_ge (grn_n r) min_beads (grn_mean r)) g) in
  r <- data_loc data (ad_b_red probes) ;;
  let col := assign_where (type_mask probes "I-Red") col
               (map (fun r => where_ge (red_n r) min_beads (red_mean r)) r) in
  i <- data_loc data (ad_a_inf probes) ;;
  Ok (assign_where (type_mask probes "II") col
        (map (fun r => where_ge (red_n r) min_beads (grn_mean r)) i)).

(** [for column, data in zip(M, data_list)]: the columns that have a bead
    table are rebuilt by [body], the others are left as they are. *)
Fixpoint zip_columns (body : BeadTable -> column -> result column)
    (M : matrix) (data_list : list BeadTable) : result matrix :=
  match M, data_list with
  | col :: M', data :: data_list' =>
      col' <- body data col ;;
      rest <- zip_columns body M' data_list' ;;
      Ok (col' :: rest)
  | _, _ => Ok M
  end.

(** *** Control beads and the negative-control statistics *)

Definition neg_mask (controls : list ControlRow) : list bool :=
  map (fun c => String.eqb (c_type c) "NEGATIVE") controls.

(** [controls_x[column].loc[con_ind] = np.where(dataa.loc[con_ind, n] > 0,
    dataa.loc[con_ind, mean], np.nan)]; an array of another length than the
    column cannot be assigned. *)
Definition fill_controls (count : BeadRow -> Z) (mean : BeadRow -> float64)
    (controls : list ControlRow) (data : BeadTable) (col : column) : result column :=
  rows <- dataa_loc data (map c_address controls) ;;
  if Nat.eqb (List.length rows) (List.length col)
  then Ok (map (fun r => where_pos (count r) (mean r)) rows)
  else Raise ValueError.

(** The pair [(neg_means, neg_sds)] the loop body assigns. *)
Definition neg_stats (controls : list ControlRow) (col : column) : float64 * float64 :=
  (series_mean (select (neg_mask controls) col),
   series_std (select (neg_mask controls) col)).

(** The loop over the columns of a control matrix.  The two statistics are
    plain variables assigned in the body: after the loop they hold what the
    last iteration computed, and nothing if the loop body never ran. *)
Fixpoint controls_loop (count : BeadRow -> Z) (mean : BeadRow -> float64)
    (controls : list ControlRow) (M : matrix) (data_list : list BeadTable)
    (last : option (float64 * float64))
  : result (matrix * option (float64 * float64)) :=
  match M, data_list with
  | col :: M', data :: data_list' =>
      col' <- fill_controls count mean controls data col ;;
      rest <- controls_loop count mean controls M' data_list'
                (Some (neg_stats controls col')) ;;
      Ok (col' :: fst rest, snd rest)
  | _, _ => Ok (M, last)
  end.

(** Reading a variable that only a loop body assigns. *)
Definition read_var {A : Type} (v : option A) : result A :=
  match v with
  | Some a => Ok a
  | None => Raise NameError
  end.

(** *** Detection thresholds *)

Definition threshold_inf1 (z neg_means neg_sds : float64) : float64 :=
  add (mul (Fin 2) neg_means) (mul (mul z (sqrt (Fin 2))) neg_sds).

(** [np.sum(neg_means_) + z * np.sqrt(np.sum(neg_sds_ ** 2))]; [np.sum] of
    a scalar is the scalar. *)
Definition threshold_inf2 (z neg_means_ neg_sds_ : float64) : float64 :=
  add neg_means_ (mul z (sqrt (square neg_sds_))).

Record Background : Type := {
  neg_means_grn : float64;
  neg_sds_grn : float64;
  neg_means_red : float64;
  neg_sds_red : float64
}.

Record Thresholds : Type := {
  threshold_inf1grn : float64;
  threshold_inf1red : float64;
  threshold_II : float64
}.

Definition thresholds (z : float64) (bg : Background) : Thresholds :=
  let neg_means_ := np_mean2 (neg_means_grn bg) (neg_means_red bg) in
  let neg_sds_ := np_std2 (neg_sds_grn bg) (neg_sds_red bg) in
  {| threshold_inf1grn := threshold_inf1 z (neg_means_grn bg) (neg_sds_grn bg);
     threshold_inf1red := threshold_inf1 z (neg_means_red bg) (neg_sds_red bg);
     threshold_II := threshold_inf2 z neg_means_ neg_sds_ |}.

(** *** Censoring

    The loop body takes the rows of one chemistry group out of the current
    column with [.loc[rows]], which gives a new series, and then assigns
    into that new series, under the label of the column, the values that
    pass both tests.  The state of the loop is the matrix it iterates over
    and the three local series. *)

Record LocalSeries : Type := {
  s_rows : column;
  s_entry : option column
}.

(** [s[s.gt(neg_means).values & I.gt(threshold).values]] *)
Definition kept (s I : column) (neg_means threshold : float64) : column :=
  map fst
    (filter (fun vi => gt (fst vi) neg_means && gt (snd vi) threshold)
       (combine s I)).

Definition censor_group (mask : list bool) (I col : column)
    (neg_means threshold : float64) : LocalSeries :=
  let s := select mask col in
  {| s_rows := s;
     s_entry := Some (kept s (select mask I) neg_means threshold) |}.

Record CensorState : Type := {
  cs_intensities : matrix;
  cs_grn : option LocalSeries;
  cs_red : option LocalSeries;
  cs_inf2 : option LocalSeries
}.

Definition censor_body (probes : ProbesTable) (bg : Background) (thr : Thresholds)
    (st : CensorState) (j : nat) : CensorState :=
  let I := row_sums (List.length (p_rows probes)) (cs_intensities st) in
  let col := nth j (cs_intensities st) [] in
  {| cs_intensities := cs_intensities st;
     cs_grn := Some (censor_group (type_mask probes "I-Grn") I col
                       (neg_means_grn bg) (threshold_inf1grn thr));
     cs_red := Some (censor_group (type_mask probes "I-Red") I col
                       (neg_means_red bg) (threshold_inf1red thr));
     cs_inf2 := Some (censor_group (type_mask probes "II") I col
                        (neg_means_red bg) (threshold_II thr)) |}.

(** [for column in intensities_X: ...] *)
Definition censor_loop (probes : ProbesTable) (bg : Background) (thr : Thresholds)
    (M : matrix) : CensorState :=
  fold_left (censor_body probes bg thr) (seq 0 (List.length M))
    {| cs_intensities := M; cs_grn := None; cs_red := None; cs_inf2 := None |}.

(** *** Dye-bias correction *)

Definition translate_char (from to : Ascii.ascii * Ascii.ascii) (c : Ascii.ascii) : Ascii.ascii :=
  if Ascii.eqb c (fst from) then fst to
  else if Ascii.eqb c (snd from) then snd to
  else c.

(** [s.translate(str.maketrans('CG', 'TA'))] *)
Fixpoint translate_CG_TA (s : string) : string :=
  match s with
  | EmptyString => EmptyString
  | String c s' =>
      String (translate_char ("C"%char, "G"%char) ("T"%char, "A"%char) c)
             (translate_CG_TA s')
  end.

Definition norm_grn_mask (controls : list ControlRow) : list bool :=
  map (fun c => String.eqb (c_type c) "NORM_C" || String.eqb (c_type c) "NORM_G")
      controls.

Definition match_ (controls : list ControlRow) : list string :=
  map translate_CG_TA (select (norm_grn_mask controls) (map c_description controls)).

(** [controls['description'].isin(match_)], a boolean series over all the
    control beads. *)
Definition isin_match (controls : list ControlRow) : list bool :=
  map (fun c => existsb (String.eqb (c_description c)) (match_ controls)) controls.

(** [controls['description'].isin(match_).index]: the index of the boolean
    series, that is every control bead. *)
Definition norm_red_mask (controls : list ControlRow) : list bool :=
  map (fun _ => true) (isin_match controls).

Definition map2 {A B C : Type} (f : A -> B -> C) (l : list A) (l' : list B) : list C :=
  map (fun ab => f (fst ab) (snd ab)) (combine l l').

(** The two correction factors of one sample.  [pd.concat([grn, red],
    axis=1)] lines the two series up on the union of their labels, a bead
    absent from [grn] being NaN there; both columns carry the label of the
    sample, so [norm_data[column]] is the two of them. *)
Definition corrections (controls : list ControlRow) (cgrn cred : column)
  : float64 * float64 :=
  let grn := map2 (fun (m : bool) g => if m then g else NaN)
                  (norm_grn_mask controls) cgrn in
  let red := select (norm_red_mask controls) cred in
  let row_mean := map2 (fun g r => series_mean [g; r]) grn red in
  (series_mean (map2 div row_mean grn), series_mean (map2 div row_mean red)).

(** The body of [for column1, column2 in zip(controls_grn, controls_red)],
    the two assignments to [.loc[inf2]] included: they multiply the Type II
    rows of every column. *)
Definition dye_bias_body (probes : ProbesTable) (controls : list ControlRow)
    (AB : matrix * matrix) (cc : column * column) : matrix * matrix :=
  let corrections_grn := fst (corrections controls (fst cc) (snd cc)) in
  let corrections_red := snd (corrections controls (fst cc) (snd cc)) in
  (map (scale_where (type_mask probes "II") corrections_red) (fst AB),
   map (scale_where (type_mask probes "II") corrections_grn) (snd AB)).

Definition dye_bias (probes : ProbesTable) (controls : list ControlRow)
    (controls_grn controls_red : matrix) (A B : matrix) : matrix * matrix :=
  fold_left (dye_bias_body probes controls) (combine controls_grn controls_red) (A, B).

(** *** Methylation ratios *)

(** One cell of [intensities_A.add(intensities_B, fill_value=0)]: a cell
    missing on one side only counts as zero, a cell missing on both sides
    stays missing. *)
Definition add_fill0 (a b : float64) : float64 :=
  match isnan a, isnan b with
  | true, true => NaN
  | true, false => add (Fin 0) b
  | false, true => add a (Fin 0)
  | false, false => add a b
  end.

(** [str.contains(pat)] for a pattern without special characters *)
Fixpoint contains (pat s : string) : bool :=
  String.prefix pat s ||
  match s with
  | EmptyString => false
  | String _ s' => contains pat s'
  end.

(** [probes[probes.index.str.contains('rs')].index], once the probe
    identifiers are the index. *)
Definition snp_idx (probes : ProbesTable) : list label :=
  map LStr (filter (contains "rs") (map probe_id (p_rows probes))).

(** One column of [intensities_B.loc[index.difference(idx)] / intensities].
    The division lines both sides up on their labels; a row that the
    difference removed is missing on the left. *)
Definition dnam_column (index idx : list label) (b s : column) : column :=
  map2 (fun (l : label) bs =>
          div (if existsb (label_eqb l) idx then NaN else fst bs) (snd bs))
       index (combine b s).

Definition dnam_matrix (index idx : list label) (A B : matrix) : matrix :=
  map2 (fun a b => dnam_column index idx b (map2 add_fill0 a b)) A B.

(** One methylation ratio, from the two intensities of its cell. *)
Definition beta_value (a b : float64) : float64 := div b (add_fill0 a b).

(** *** Missingness metrics of the summary table *)

(** [dnam[column].loc[keys]] on the probe identifiers: for each key in turn,
    every row labelled by it. *)
Definition loc_ids (ids : list string) (col : column) (keys : list string) : column :=
  flat_map (fun k => select (map (String.eqb k) ids) col) keys.

(** [probes[probes['chr'] == 'Y'].index] *)
Definition idy (probes : ProbesTable) : list string :=
  map probe_id (filter (fun r => String.eqb (chr r) "Y") (p_rows probes)).

(** The entry [missing_chrY] of one sample. *)
Definition missing_chrY (probes : ProbesTable) (dnam_col : column) : float64 :=
  isna_mean (loc_ids (map probe_id (p_rows probes)) dnam_col (idy probes)).

End Stages.

Import Stages.

(** ** Lines 82-231 (DNAm) and 64-257 (CH3): from the arguments to the ratios

    [list_idat] and scipy's [norm.ppf] are not part of the repository: the
    sample identifiers [list_idat] yields are an input, the quantile
    function is a parameter.  What the run leaves in the probe table
    object is part of the result. *)

Module Pipeline.

Section WithQuantile.

Variable norm_ppf : float64 -> float64.

Record Computed : Type := {
  probes_after : ProbesTable;
  background : Background;
  detection_thresholds : Thresholds;
  intensities_A : matrix;
  intensities_B : matrix;
  controls_grn : matrix;
  controls_red : matrix;
  intensities : matrix;
  dnam : matrix
}.

(** The three [assert] statements. *)
Definition check_arguments (min_beads : Z) (detection : float64) : result unit :=
  if negb (gt detection (Fin 0)) then Raise AssertionError
  else if negb (le detection (Fin 1)) then Raise AssertionError
  else if negb (0 <? min_beads)%Z then Raise AssertionError
  else Ok tt.

Definition ratios (probes : ProbesTable) (controls : list ControlRow)
    (sample_ids : list string) (data_list : list BeadTable)
    (min_beads : Z) (detection : float64) : result Computed :=
  _ <- check_arguments min_beads detection ;;
  let index := probes_index probes in
  let nprobes := List.length (p_rows probes) in
  let nsamples := List.length sample_ids in
  A <- zip_columns (fill_A min_beads probes) (nan_matrix nprobes nsamples) data_list ;;
  B <- zip_columns (fill_B min_beads probes) (nan_matrix nprobes nsamples) data_list ;;
  g <- controls_loop grn_n grn_mean controls
         (nan_matrix (List.length controls) nsamples) data_list None ;;
  r <- controls_loop red_n red_mean controls
         (nan_matrix (List.length controls) nsamples) data_list None ;;
  ng <- read_var (snd g) ;;
  nr <- read_var (snd r) ;;
  let bg := {| neg_means_grn := fst ng; neg_sds_grn := snd ng;
               neg_means_red := fst nr; neg_sds_red := snd nr |} in
  let z := norm_ppf (sub (Fin 1) detection) in
  let thr := thresholds z bg in
  let A := cs_intensities (censor_loop probes bg thr A) in
  let B := cs_intensities (censor_loop probes bg thr B) in
  let AB := dye_bias probes controls (fst g) (fst r) A B in
  probes' <- set_index_unnamed0 probes ;;
  let idx := snp_idx probes' in
  Ok {| probes_after := probes';
        background := bg;
        detection_thresholds := thr;
        intensities_A := fst AB;
        intensities_B := snd AB;
        controls_grn := fst g;
        controls_red := fst r;
        intensities := map2 (map2 add_fill0) (fst AB) (snd AB);
        dnam := dnam_matrix index idx (fst AB) (snd AB) |}.

End WithQuantile.

End Pipeline.

(** ** The copy under [DNAm/] *)

Module DNAm.

(** [preprocess(data, probes, controls, ...)] up to the ratios: the one
    bead table [data] fills every sample column, and [probes] is the
    caller's object. *)
Definition preprocess_ratios (norm_ppf : float64 -> float64)
    (data : BeadTable) (probes : ProbesTable) (controls : list ControlRow)
    (sample_ids : list string) (min_beads : Z) (detection : float64)
  : result Pipeline.Computed :=
  Pipeline.ratios norm_ppf probes controls sample_ids
    (map (fun _ => data) sample_ids) min_beads detection.

(** What [preprocess] hands back. *)
Inductive Returned (S C N M : Type) : Type :=
| Seven (samples : S) (cpgs : C) (snps : N)
        (intensities_A intensities_B controls_red controls_grn : M)
| Snps (snps : N)
| Three (samples : S) (cpgs : C) (snps : N).

Arguments Seven {S C N M}.
Arguments Snps {S C N M}.
Arguments Three {S C N M}.

(** The final [if]/[elif]/[else].  The [elif] tests [return_snps], a name
    that is neither a parameter, nor a local, nor a global of the module:
    [return_snps_r] is never read. *)
Definition return_stage {S C N M : Type} (return_intensities return_snps_r : bool)
    (samples : S) (cpgs : C) (snps : N)
    (intensities_A intensities_B controls_red controls_grn : M)
  : result (Returned S C N M) :=
  if return_intensities
  then Ok (Seven samples cpgs snps intensities_A intensities_B controls_red controls_grn)
  else
    return_snps <- read_var (@None bool) ;;
    if return_snps then Ok (Snps snps) else Ok (Three samples cpgs snps).

End DNAm.

(** ** The copy under [CH3/] *)

Module CH3.

Open Scope string_scope.

(** [read_manifests] builds a new probe table at every call. *)
Definition read_manifests (probe_rows : list ProbeRow) : ProbesTable :=
  {| p_index := RangeIndex; p_rows := probe_rows |}.

(** [preprocess(probes_file, controls_file, ...)] up to the ratios:
    [probe_rows] and [controls] are the contents of the two files,
    [data_list] the bead tables the function loads, paired with the sample
    columns by [zip]. *)
Definition preprocess_ratios (norm_ppf : float64 -> float64)
    (probe_rows : list ProbeRow) (controls : list ControlRow)
    (sample_ids : list string) (data_list : list BeadTable)
    (min_beads : Z) (detection : float64)
  : result Pipeline.Computed :=
  Pipeline.ratios norm_ppf (read_manifests probe_rows) controls sample_ids
    data_list min_beads detection.

Inductive Returned (S C N M : Type) : Type :=
| Seven (samples : S) (cpgs : C) (snps : N)
        (intensities_A intensities_B controls_red controls_grn : M)
| SnpsR (snps_r : column)
| Three (samples : S) (cpgs : C) (snps : N).

Arguments Seven {S C N M}.
Arguments SnpsR {S C N M}.
Arguments Three {S C N M}.

(** The value of [idx] when the function reaches its last lines: the loop
    over the columns of [summary] ends by assigning it the identifiers of
    the chromosome X probes; if there is no column it still holds the
    identifiers that contain ["rs"]. *)
Definition final_idx (probes : ProbesTable) (sample_ids : list string) : list string :=
  match sample_ids with
  | [] => filter (contains "rs") (map probe_id (p_rows probes))
  | _ => map probe_id (filter (fun r => String.eqb (chr r) "X") (p_rows probes))
  end.

(** [intensities[idx]]: a list of labels in brackets selects columns, and a
    label that is not a column raises [KeyError]. *)
Definition getitem_columns (sample_ids : list string) (M : matrix) (idx : list string)
  : result matrix :=
  for_each
    (fun k =>
       match find (fun cl => String.eqb (fst cl) k) (combine sample_ids M) with
       | Some cl => Ok (snd cl)
       | None => Raise KeyError
       end)
    idx.

(** [np.sqrt(np.sum(intensities[idx]**2))]: one number per selected column,
    the root of the sum of the squares of all its rows. *)
Definition snps_r (sample_ids : list string) (intensities : matrix) (idx : list string)
  : result column :=
  cols <- getitem_columns sample_ids intensities idx ;;
  Ok (map (fun col => sqrt (nansum (map square col))) cols).

Definition return_stage {S C N M : Type} (return_intensities return_snps_r : bool)
    (sample_ids : list string) (intensities : matrix) (idx : list string)
    (samples : S) (cpgs : C) (snps : N)
    (intensities_A intensities_B controls_red controls_grn : M)
  : result (Returned S C N M) :=
  if return_intensities
  then Ok (Seven samples cpgs snps intensities_A intensities_B controls_red controls_grn)
  else if return_snps_r
  then r <- snps_r sample_ids intensities idx ;; Ok (SnpsR r)
  else Ok (Three samples cpgs snps).

End CH3.

(** ** SNP coordinates (DNAm lines 236-242, CH3 lines 262-268) *)

Module Snps.

Open Scope string_scope.

(** [np.arctan2(y, x)] on finite numbers; a zero counts as the positive
    zero. *)
Definition atan2 (y x : R) : R :=
  if Rltb 0 x then atan (y / x)
  else if Rltb x 0
       then (if Rltb y 0 then atan (y / x) - PI else atan (y / x) + PI)
       else if Rltb 0 y then PI / 2
            else if Rltb y 0 then - (PI / 2)
                 else 0.

(** [np.arctan2] with the special values of IEEE-754. *)
Definition arctan2 (b a : float64) : float64 :=
  match b, a with
  | NaN, _ | _, NaN => NaN
  | Fin y, Fin x => Fin (atan2 y x)
  | Fin _, PInf => Fin 0
  | Fin y, NInf => if Rltb y 0 then Fin (- PI) else Fin PI
  | PInf, Fin _ => Fin (PI / 2)
  | NInf, Fin _ => Fin (- (PI / 2))
  | PInf, PInf => Fin (PI / 4)
  | PInf, NInf => Fin (3 * PI / 4)
  | NInf, PInf => Fin (- (PI / 4))
  | NInf, NInf => Fin (- (3 * PI / 4))
  end.

(** One cell of [np.arctan2(B, A) / (np.pi/2)]. *)
Definition theta (a b : float64) : float64 :=
  div (arctan2 b a) (div (Fin PI) (Fin 2)).

(** [probes[probes.index.str.contains('rs')].index] as identifiers. *)
Definition snp_ids (probes : ProbesTable) : list string :=
  filter (contains "rs") (map probe_id (p_rows probes)).

(** One sample column of [snps]: the two intensity matrices have been given
    the probe identifiers as index, and [.loc[idx]] picks, for each SNP
    identifier in turn, every row labelled by it. *)
Definition snps_column (probes : ProbesTable) (a b : column) : column :=
  map2 theta
    (loc_ids (map probe_id (p_rows probes)) a (snp_ids probes))
    (loc_ids (map probe_id (p_rows probes)) b (snp_ids probes)).

Definition snps (probes : ProbesTable) (A B : matrix) : matrix :=
  map2 (snps_column probes) A B.

End Snps.

(** ** The shape of a matrix *)

Module Shapes.

(** [ncols] columns of [nrows] cells each. *)
Definition has_shape (nrows ncols : nat) (M : matrix) : Prop :=
  List.length M = ncols /\ Forall (fun col => List.length col = nrows) M.

End Shapes.

(** ** Example inputs

    scipy's [norm.ppf] is not modelled; the examples run with the constant
    quantile function that returns 1.645, the value of [norm.ppf(0.95)] to
    three decimals. *)

Module Examples.

Open Scope string_scope.

Definition z_scenario : float64 := Fin (1645 / 1000).

Definition ppf_scenario (p : float64) : float64 := z_scenario.

Definition bead (address n : Z) (grn red : R) : BeadRow :=
  {| sample_id := address;
     grn_n := n; grn_mean := Fin grn; grn_sd := Fin 0;
     red_n := n; red_mean := Fin red; red_sd := Fin 0 |}.

Definition probe (id c t : string) (a b : Z) : ProbeRow :=
  {| probe_id := id; chr := c; pos := 0; ptype := t;
     address_a := a; address_b := b |}.

Definition control (address : Z) (t d : string) : ControlRow :=
  {| c_address := address; c_type := t; c_description := d |}.

Definition loaded (rows : list ProbeRow) : ProbesTable :=
  {| p_index := RangeIndex; p_rows := rows |}.

(** One Type II probe whose beads sit at address 10, in a bead table whose
    first row is the bead at address 20. *)
Definition probes_II : ProbesTable := loaded [probe "cg1" "1" "II" 10 0].

Definition data_II : BeadTable := [bead 20 5 111 222; bead 10 5 1 2].

(** One I-Grn probe with bead A at address 10 and bead B at address 20. *)
Definition probes_IGrn : ProbesTable := loaded [probe "cg2" "1" "I-Grn" 10 20].

(** A SNP probe and a chromosome X probe; one sample. *)
Definition probes_snp : ProbesTable :=
  {| p_index := NameIndex;
     p_rows := [probe "rs1" "1" "I-Grn" 1 2; probe "cg3" "X" "II" 3 0] |}.

Definition background_100 : Background :=
  {| neg_means_grn := Fin 100; neg_sds_grn := Fin 10;
     neg_means_red := Fin 100; neg_sds_red := Fin 10 |}.

(** Two probes on chromosome Y and one on chromosome 1. *)
Definition probes_Y : ProbesTable :=
  {| p_index := NameIndex;
     p_rows := [probe "cg4" "Y" "II" 4 0; probe "cg5" "1" "II" 5 0;
                probe "cg6" "Y" "II" 6 0] |}.

Definition thresholds_223 : Thresholds :=
  {| threshold_inf1grn := Fin 223; threshold_inf1red := Fin 223;
     threshold_II := Fin 100 |}.

(** Negative controls whose two channels have standard deviations 10 and
    30. *)
Definition background_10_30 : Background :=
  {| neg_means_grn := Fin 100; neg_sds_grn := Fin 10;
     neg_means_red := Fin 100; neg_sds_red := Fin 30 |}.

(** A run on one sample: an I-Grn probe, two negative control beads. *)
Definition controls_neg : list ControlRow :=
  [control 21 "NEGATIVE" "Negative 1"; control 22 "NEGATIVE" "Negative 2"].

Definition data_neg : BeadTable :=
  [bead 10 5 1 1; bead 21 5 90 80; bead 22 5 110 120].

(** The same run with no bead counted on the two negative controls. *)
Definition data_neg_missing : BeadTable :=
  [bead 10 5 1 1; bead 21 0 90 80; bead 22 0 110 120].

(** One normalisation bead, one Type II probe with [A = B = 1] in each of
    two samples.  The first sample's control reads 2 in both channels, the
    second sample's reads 1 in green and 3 in red. *)
Definition controls_norm : list ControlRow := [control 31 "NORM_C" "Norm_C1"].

Definition norm_grn : matrix := [[Fin 2]; [Fin 1]].
Definition norm_red : matrix := [[Fin 2]; [Fin 3]].
Definition ones_II : matrix := [[Fin 1]; [Fin 1]].

(** A bead table whose first bead has two beads counted in each channel. *)
Definition data_low : BeadTable := [bead 20 2 111 222].

(** An I-Red probe in manifest row 0. *)
Definition probes_IRed : ProbesTable := loaded [probe "cg7" "1" "I-Red" 10 20].

(** A probe table already indexed by the probe identifiers. *)
Definition probes_indexed : ProbesTable :=
  {| p_index := NameIndex; p_rows := [probe "cg2" "1" "I-Grn" 10 20] |}.

End Examples.

Import Examples.

(** ** The detection threshold of Type II probes in the words of the spec *)

Module Spec.

(** [threshold_II = neg_mean_overall + z*sqrt(neg_sd_overall^2 * 2)] *)
Definition claimed_threshold_II (z neg_mean_overall neg_sd_overall : float64) : float64 :=
  add neg_mean_overall (mul z (sqrt (mul (square neg_sd_overall) (Fin 2)))).

End Spec.

(** * Properties *)

Open Scope list_scope.

(** ** Arithmetic of the number model *)

Lemma Rltb_true (x y : R) : x < y -> Rltb x y = true.
Proof. intro H. unfold Rltb. destruct (Rlt_dec x y); [reflexivity | contradiction]. Qed.

Lemma Rltb_false (x y : R) : ~ x < y -> Rltb x y = false.
Proof. intro H. unfold Rltb. destruct (Rlt_dec x y); [contradiction | reflexivity]. Qed.

Lemma Rleb_true (x y : R) : x <= y -> Rleb x y = true.
Proof. intro H. unfold Rleb. destruct (Rle_dec x y); [reflexivity | contradiction]. Qed.

Lemma Rleb_false (x y : R) : ~ x <= y -> Rleb x y = false.
Proof. intro H. unfold Rleb. destruct (Rle_dec x y); [contradiction | reflexivity]. Qed.

Lemma Reqb_true (x y : R) : x = y -> Reqb x y = true.
Proof. intro H. unfold Reqb. destruct (Req_dec_T x y); [reflexivity | contradiction]. Qed.

Lemma Reqb_false (x y : R) : x <> y -> Reqb x y = false.
Proof. intro H. unfold Reqb. destruct (Req_dec_T x y); [contradiction | reflexivity]. Qed.

Lemma mul_one_r (a : float64) : mul a (Fin 1) = a.
Proof.
  destruct a as [| | |x]; simpl; trivial.
  - rewrite Reqb_false by lra. unfold inf_of_sign. now rewrite Rltb_true by lra.
  - rewrite Reqb_false by lra. unfold inf_of_sign. now rewrite Rltb_false by lra.
  - f_equal. lra.
Qed.

(** Decides the comparisons of concrete reals that an evaluation leaves. *)
Ltac rdecide :=
  repeat first
    [ rewrite Reqb_true by lra
    | rewrite Reqb_false by lra
    | rewrite Rltb_true by lra
    | rewrite Rltb_false by lra
    | rewrite Rleb_true by lra
    | rewrite Rleb_false by lra ].

(** ** Methylation ratios *)

Lemma nth_map2 {A B C : Type} (f : A -> B -> C) (l : list A) (l' : list B)
    (i : nat) (da : A) (db : B) (dc : C) :
  (i < List.length l)%nat -> (i < List.length l')%nat ->
  nth i (map2 f l l') dc = f (nth i l da) (nth i l' db).
Proof.
  revert l' i. induction l as [|a l IH]; intros [|b l'] i Hl Hl'; simpl in *; try lia.
  destruct i as [|i]; [reflexivity|].
  apply (IH l' i); lia.
Qed.

Lemma length_map2 {A B C : Type} (f : A -> B -> C) (l : list A) (l' : list B) :
  List.length (map2 f l l') = Nat.min (List.length l) (List.length l').
Proof. unfold map2. now rewrite length_map, length_combine. Qed.

Lemma existsb_label_int_str (i : nat) (names : list string) :
  existsb (label_eqb (LInt i)) (map LStr names) = false.
Proof. induction names as [|s names IH]; simpl; trivial. Qed.

(** Every row of the ratio matrix, the rows of the SNP probes included,
    holds [beta_value] of its two intensities: the matrices carry the
    positions of the probe table as labels, and no position is among the
    identifiers that [index.difference] is asked to remove. *)
Lemma dnam_column_cell (n : nat) (names : list string) (a b : column) (i : nat) :
  List.length a = n -> List.length b = n -> (i < n)%nat ->
  nth i (dnam_column (map LInt (seq 0 n)) (map LStr names) b (map2 add_fill0 a b)) NaN
  = beta_value (nth i a NaN) (nth i b NaN).
Proof.
  intros Ha Hb Hi. unfold dnam_column.
  rewrite (nth_map2 _ _ _ i (LInt 0) (NaN, NaN) NaN).
  - rewrite (map_nth LInt), seq_nth by lia.
    rewrite existsb_label_int_str.
    rewrite combine_nth by (rewrite length_map2; lia).
    simpl. unfold beta_value. f_equal.
    apply nth_map2; lia.
  - rewrite length_map, length_seq. lia.
  - rewrite length_combine, length_map2. lia.
Qed.

(** C1 (as the code has it).  The ratio of a cell is [B / S], where the sum
    [S] takes a missing intensity for zero when the other one is present.
    With both intensities present it is [B / (A + B)], within [0, 1] when
    both are non-negative and not both zero.  For [B] not infinite, the
    ratio is missing exactly when [B] is missing, or [B] is zero and [A] is
    missing or zero. *)
Theorem beta_value_fill_value_zero :
  (forall (n : nat) (names : list string) (a b : column) (i : nat),
      List.length a = n -> List.length b = n -> (i < n)%nat ->
      nth i (dnam_column (map LInt (seq 0 n)) (map LStr names) b
               (map2 add_fill0 a b)) NaN
      = beta_value (nth i a NaN) (nth i b NaN)) /\
  (forall x y : R, x + y <> 0 -> beta_value (Fin x) (Fin y) = Fin (y / (x + y))) /\
  (forall x y : R, 0 <= x -> 0 <= y -> x + y <> 0 ->
      0 <= y / (x + y) <= 1) /\
  (forall y : R, beta_value NaN (Fin y) = div (Fin y) (Fin y)) /\
  (forall a b : float64, isinf b = false ->
      (isnan (beta_value a b) = true <->
       isnan b = true \/ (b = Fin 0 /\ (a = NaN \/ a = Fin 0)))).
Proof.
  split; [exact dnam_column_cell|].
  split; [intros x y H; unfold beta_value; simpl; now rewrite Reqb_false|].
  split.
  { intros x y Hx Hy H.
    assert (0 < x + y) by lra.
    split.
    - apply Rmult_le_pos; [lra|]. left. now apply Rinv_0_lt_compat.
    - apply Rmult_le_reg_r with (x + y); [lra|]. field_simplify; lra. }
  split.
  { intro y. unfold beta_value. simpl. now replace (0 + y) with y by lra. }
  intros a b Hb. unfold beta_value.
  destruct b as [| | |y]; try discriminate.
  - destruct a; simpl; intuition.
  - destruct a as [| | |x]; simpl.
    + destruct (Req_dec_T y 0) as [->|Hy].
      * replace (0 + 0) with 0 by lra. rewrite Reqb_true by reflexivity.
        simpl. intuition.
      * rewrite (Reqb_false (0 + y)) by lra. simpl.
        split; [discriminate|].
        intros [H|[H _]]; [discriminate|]. injection H as H. contradiction.
    + split; [discriminate|].
      intros [H|[_ [H|H]]]; discriminate.
    + split; [discriminate|].
      intros [H|[_ [H|H]]]; discriminate.
    + destruct (Req_dec_T (x + y) 0) as [Hs|Hs].
      * rewrite (Reqb_true _ _ Hs).
        destruct (Req_dec_T y 0) as [->|Hy].
        -- rewrite Reqb_true by reflexivity. simpl.
           assert (x = 0) by lra. subst. intuition.
        -- rewrite (Reqb_false y) by assumption.
           unfold inf_of_sign. split.
           ++ destruct (Rltb 0 y); discriminate.
           ++ intros [H|[H _]]; [discriminate|]. injection H as H. contradiction.
      * rewrite (Reqb_false _ _ Hs). simpl. split; [discriminate|].
        intros [H|[H [H'|H']]]; try discriminate.
        injection H as H. injection H' as H'. subst. lra.
Qed.

(** Two present intensities give a ratio within [0, 1]; a missing [B] gives
    a missing ratio. *)
Lemma beta_value_fill_value_zero_witness :
  beta_value (Fin 3) (Fin 1) = Fin (1 / (3 + 1)) /\
  0 <= 1 / (3 + 1) <= 1 /\
  isnan (beta_value (Fin 3) NaN) = true.
Proof.
  destruct beta_value_fill_value_zero as (_ & Hdiv & Hrange & _ & Hnan).
  split; [apply Hdiv; lra|].
  split; [apply Hrange; lra|].
  apply Hnan; [reflexivity|]. left. reflexivity.
Defined.

(** C1 (as stated) fails: with [A] missing and [B = 5] the sum counts the
    missing [A] as zero and the ratio is 1, not missing. *)
Lemma beta_value_missing_A_is_not_missing :
  beta_value NaN (Fin 5) = Fin 1 /\
  isnan (beta_value NaN (Fin 5)) = false /\
  dnam_matrix [LInt 0%nat] [] [[NaN]] [[Fin 5]] = [[Fin 1]].
Proof.
  assert (H : beta_value NaN (Fin 5) = Fin 1).
  { unfold beta_value. simpl. rewrite Reqb_false by lra. f_equal. field. }
  split; [exact H|]. split; [now rewrite H|].
  unfold dnam_matrix, dnam_column, map2. simpl.
  rewrite Reqb_false by lra. do 2 f_equal. f_equal. field.
Qed.

(** ** What is returned *)

(** C10.  With [return_intensities] set, both copies return the seven
    outputs whatever [return_snps_r] is, so the branch of [return_snps_r]
    is not taken; with [return_intensities] unset the copy under [CH3/]
    does take it. *)
Theorem return_intensities_takes_precedence :
  forall (S C N M : Type) (return_snps_r : bool) (sample_ids : list string)
         (intensities : matrix) (idx : list string)
         (samples : S) (cpgs : C) (snps : N) (A B cr cg : M),
    DNAm.return_stage true return_snps_r samples cpgs snps A B cr cg
    = Ok (DNAm.Seven samples cpgs snps A B cr cg) /\
    CH3.return_stage true return_snps_r sample_ids intensities idx
      samples cpgs snps A B cr cg
    = Ok (CH3.Seven samples cpgs snps A B cr cg) /\
    CH3.return_stage false true sample_ids intensities []
      samples cpgs snps A B cr cg
    = Ok (CH3.SnpsR []).
Proof. intros. repeat split. Qed.

(** C8 (failing input).  One SNP probe with [A = 3] and [B = 4], one
    chromosome X probe, one sample, [return_snps_r] set: the copy under
    [DNAm/] stops on the unbound name [return_snps]; the copy under [CH3/]
    looks the chromosome X identifier up among the sample columns and stops
    on [KeyError].  Neither returns the radius 5. *)
Theorem return_snps_r_returns_no_radius :
  DNAm.return_stage false true tt tt tt [[Fin 3; Fin 1]] [[Fin 4; Fin 1]]
    ([] : matrix) ([] : matrix)
  = Raise NameError /\
  CH3.final_idx probes_snp ["s1"%string] = ["cg3"%string] /\
  CH3.return_stage false true ["s1"%string] [[Fin 7; Fin 2]]
    (CH3.final_idx probes_snp ["s1"%string])
    tt tt tt [[Fin 3; Fin 1]] [[Fin 4; Fin 1]] ([] : matrix) ([] : matrix)
  = Raise KeyError.
Proof. repeat split. Qed.

(** ** Intensity extraction *)

(** C4 (failing input).  The Type II probe has its beads at address 10,
    whose green mean is 1 and red mean 2; the A and B intensities come out
    as 111, the green mean of the bead table's row 0, the row that has the
    probe's position in the manifest.  For the I-Grn probe with beads at
    addresses 10 and 20 both roles read that same row. *)
Theorem extraction_ignores_addresses_and_red_channel :
  fill_A 3 probes_II data_II [NaN] = Ok [Fin 111] /\
  fill_B 3 probes_II data_II [NaN] = Ok [Fin 111] /\
  fill_A 3 probes_IGrn data_II [NaN] = Ok [Fin 111] /\
  fill_B 3 probes_IGrn data_II [NaN] = Ok [Fin 111].
Proof. repeat split. Qed.

(** ** Censoring *)

Lemma censor_fold_intensities (probes : ProbesTable) (bg : Background)
    (thr : Thresholds) (js : list nat) (st : CensorState) :
  cs_intensities (fold_left (censor_body probes bg thr) js st) = cs_intensities st.
Proof.
  revert st. induction js as [|j js IH]; intro st; simpl; [reflexivity|].
  now rewrite IH.
Qed.

(** The censor loop never writes to the matrix it iterates over. *)
Lemma censor_loop_intensities (probes : ProbesTable) (bg : Background)
    (thr : Thresholds) (M : matrix) :
  cs_intensities (censor_loop probes bg thr M) = M.
Proof. unfold censor_loop. now rewrite censor_fold_intensities. Qed.

(** ** Detection thresholds *)

Lemma np_mean2_fin (a b : R) : np_mean2 (Fin a) (Fin b) = Fin ((a + b) / 2).
Proof. unfold np_mean2. simpl. now rewrite Reqb_false by lra. Qed.

(** The population standard deviation of two numbers is half their
    distance. *)
Lemma np_std2_fin (a b : R) : np_std2 (Fin a) (Fin b) = Fin (Rabs (a - b) / 2).
Proof.
  unfold np_std2. rewrite np_mean2_fin. simpl.
  rewrite Reqb_false by lra. simpl.
  set (v := (_ + _) / 2).
  assert (Hv : v = Rsqr ((a - b) / 2)) by (unfold v, Rsqr; field).
  rewrite Rltb_false by (rewrite Hv; pose proof (Rle_0_sqr ((a - b) / 2)); lra).
  f_equal. rewrite Hv, sqrt_Rsqr_abs.
  unfold Rdiv. rewrite Rabs_mult. f_equal.
  apply Rabs_pos_eq. lra.
Qed.

Lemma threshold_inf1_fin (z m s : R) :
  threshold_inf1 (Fin z) (Fin m) (Fin s) = Fin (2 * m + z * R_sqrt.sqrt 2 * s).
Proof. unfold threshold_inf1. simpl. now rewrite Rltb_false by lra. Qed.

Lemma threshold_inf2_fin (z m s : R) :
  threshold_inf2 (Fin z) (Fin m) (Fin s) = Fin (m + z * R_sqrt.sqrt (s ^ 2)).
Proof.
  unfold threshold_inf2. simpl.
  rewrite Rltb_false by nra.
  simpl. now replace (s * (s * 1)) with (s * s) by lra.
Qed.

Lemma sqrt2_bounds : 14142 / 10000 < R_sqrt.sqrt 2 < 14143 / 10000.
Proof.
  split.
  - rewrite <- (sqrt_square (14142 / 10000)) by lra.
    apply sqrt_lt_1; lra.
  - rewrite <- (sqrt_square (14143 / 10000)) by lra.
    apply sqrt_lt_1; lra.
Qed.

Ltac invert_bind H :=
  match type of H with
  | bind ?m _ = Ok _ =>
      let E := fresh "E" in
      destruct m eqn:E; [simpl in H | discriminate H]
  end.

(** A run that reaches the ratios has computed its thresholds from the
    negative-control statistics it holds, at the quantile of
    [1 - detection]. *)
Lemma ratios_thresholds (norm_ppf : float64 -> float64) (probes : ProbesTable)
    (controls : list ControlRow) (sample_ids : list string)
    (data_list : list BeadTable) (min_beads : Z) (detection : float64)
    (c : Pipeline.Computed) :
  Pipeline.ratios norm_ppf probes controls sample_ids data_list min_beads detection
  = Ok c ->
  Pipeline.detection_thresholds c
  = thresholds (norm_ppf (sub (Fin 1) detection)) (Pipeline.background c).
Proof.
  unfold Pipeline.ratios. intro H.
  repeat invert_bind H.
  injection H as <-. reflexivity.
Qed.

Lemma thresholds_fin (z mg sg mr sr : R) :
  thresholds (Fin z)
    {| neg_means_grn := Fin mg; neg_sds_grn := Fin sg;
       neg_means_red := Fin mr; neg_sds_red := Fin sr |}
  = {| threshold_inf1grn := Fin (2 * mg + z * R_sqrt.sqrt 2 * sg);
       threshold_inf1red := Fin (2 * mr + z * R_sqrt.sqrt 2 * sr);
       threshold_II :=
         Fin ((mg + mr) / 2 + z * R_sqrt.sqrt ((Rabs (sg - sr) / 2) ^ 2)) |}.
Proof.
  unfold thresholds. cbv [neg_means_grn neg_sds_grn neg_means_red neg_sds_red].
  now rewrite !threshold_inf1_fin, np_mean2_fin, np_std2_fin, threshold_inf2_fin.
Qed.

(** C3 (as the code has it).  The thresholds are computed from the
    negative-control means and standard deviations with [z] the quantile at
    [1 - detection]: [2*mean + z*sqrt(2)*sd] for each Type I channel, and
    for Type II the mean of the two channel means plus [z] times the root
    of the squared population standard deviation of the two channel
    standard deviations, with no factor 2 under the root.  With [z = 1.645],
    mean 100 and standard deviation 10 the green threshold is
    [200 + 1.645*sqrt(2)*10], between 223.2 and 223.3. *)
Theorem detection_thresholds_formulas :
  (forall (norm_ppf : float64 -> float64) (data : BeadTable) (probes : ProbesTable)
          (controls : list ControlRow) (sample_ids : list string)
          (min_beads : Z) (detection : float64) (c : Pipeline.Computed),
      DNAm.preprocess_ratios norm_ppf data probes controls sample_ids
        min_beads detection = Ok c ->
      Pipeline.detection_thresholds c
      = thresholds (norm_ppf (sub (Fin 1) detection)) (Pipeline.background c)) /\
  (forall z mg sg mr sr : R,
      thresholds (Fin z)
        {| neg_means_grn := Fin mg; neg_sds_grn := Fin sg;
           neg_means_red := Fin mr; neg_sds_red := Fin sr |}
      = {| threshold_inf1grn := Fin (2 * mg + z * R_sqrt.sqrt 2 * sg);
           threshold_inf1red := Fin (2 * mr + z * R_sqrt.sqrt 2 * sr);
           threshold_II :=
             Fin ((mg + mr) / 2
                  + z * R_sqrt.sqrt ((Rabs (sg - sr) / 2) ^ 2)) |}) /\
  (forall a b : R, np_mean2 (Fin a) (Fin b) = Fin ((a + b) / 2)) /\
  (forall a b : R, np_std2 (Fin a) (Fin b) = Fin (Rabs (a - b) / 2)) /\
  threshold_inf1grn (thresholds z_scenario background_100)
  = Fin (200 + 1645 / 1000 * R_sqrt.sqrt 2 * 10) /\
  2232 / 10 < 200 + 1645 / 1000 * R_sqrt.sqrt 2 * 10 < 2233 / 10.
Proof.
  split.
  { intros norm_ppf data probes controls sample_ids min_beads detection c H.
    exact (ratios_thresholds _ _ _ _ _ _ _ _ H). }
  split; [exact thresholds_fin|].
  split; [exact np_mean2_fin|].
  split; [exact np_std2_fin|].
  split.
  - unfold z_scenario, background_100. rewrite thresholds_fin. simpl.
    f_equal; lra.
  - pose proof sqrt2_bounds. lra.
Qed.

(** C3 (as stated) fails on the Type II threshold.  With channel means 100
    and channel standard deviations 10 and 30, whose population standard
    deviation is 10, and [z = 1.645], the code gives [100 + 1.645*10]; the
    formula with the factor 2 under the root gives another number. *)
Lemma threshold_II_has_no_factor_two :
  threshold_II (thresholds z_scenario background_10_30) = Fin (11645 / 100) /\
  Spec.claimed_threshold_II z_scenario
    (np_mean2 (Fin 100) (Fin 100)) (np_std2 (Fin 10) (Fin 30))
  <> Fin (11645 / 100).
Proof.
  assert (Habs : Rabs (10 - 30) / 2 = 10).
  { rewrite Rabs_left by lra. lra. }
  split.
  - unfold z_scenario, background_10_30. rewrite thresholds_fin. simpl.
    f_equal. rewrite Habs.
    replace (10 * (10 * 1)) with (10 * 10) by lra.
    rewrite sqrt_square by lra. lra.
  - unfold Spec.claimed_threshold_II, z_scenario.
    rewrite np_mean2_fin, np_std2_fin, Habs. simpl.
    rewrite Rltb_false by lra. simpl.
    intro H. injection H as H.
    assert (14 < R_sqrt.sqrt (10 * 10 * 2)).
    { rewrite <- (sqrt_square 14) by lra. apply sqrt_lt_1; lra. }
    lra.
Qed.

(** ** One run of the copy under [DNAm/] on one sample *)

(** The run on an I-Grn probe of intensity 1 and two negative controls of
    green means 90 and 110. *)
Lemma run_data_neg :
  exists c : Pipeline.Computed,
    DNAm.preprocess_ratios ppf_scenario data_neg probes_IGrn controls_neg
      ["s1"%string] 3 (Fin (5 / 100)) = Ok c /\
    Pipeline.probes_after c
    = {| p_index := NameIndex; p_rows := p_rows probes_IGrn |} /\
    neg_means_grn (Pipeline.background c) = Fin 100 /\
    Pipeline.intensities_A c = [[Fin 1]] /\
    Pipeline.intensities_B c = [[Fin 1]].
Proof.
  unfold DNAm.preprocess_ratios, Pipeline.ratios, Pipeline.check_arguments.
  cbn. rdecide. cbn.
  eexists. split; [reflexivity|]. cbn.
  repeat split. f_equal. lra.
Qed.

Lemma detection_thresholds_formulas_witness :
  exists c : Pipeline.Computed,
    DNAm.preprocess_ratios ppf_scenario data_neg probes_IGrn controls_neg
      ["s1"%string] 3 (Fin (5 / 100)) = Ok c /\
    Pipeline.detection_thresholds c
    = thresholds (ppf_scenario (sub (Fin 1) (Fin (5 / 100)))) (Pipeline.background c).
Proof.
  destruct run_data_neg as (c & Hrun & _).
  exists c. split; [exact Hrun|].
  exact (proj1 detection_thresholds_formulas _ _ _ _ _ _ _ _ Hrun).
Defined.

(** C2 (failing input).  An I-Grn probe with intensity 1 in the only
    sample, green negative controls of mean 100.  In the censor loop the
    value fails both tests and the loop's local series drops it, but the
    matrix the loop iterates over still holds 1; the whole run, in either
    copy, returns the intensity matrices with the value 1 in them. *)
Theorem censor_loop_keeps_value_below_background :
  gt (Fin 1) (neg_means_grn background_100) = false /\
  gt (nth 0 (row_sums 1 [[Fin 1]]) NaN) (threshold_inf1grn thresholds_223) = false /\
  cs_grn (censor_loop probes_IGrn background_100 thresholds_223 [[Fin 1]])
  = Some {| s_rows := [Fin 1]; s_entry := Some [] |} /\
  cs_intensities (censor_loop probes_IGrn background_100 thresholds_223 [[Fin 1]])
  = [[Fin 1]] /\
  exists c : Pipeline.Computed,
    DNAm.preprocess_ratios ppf_scenario data_neg probes_IGrn controls_neg
      ["s1"%string] 3 (Fin (5 / 100)) = Ok c /\
    CH3.preprocess_ratios ppf_scenario (p_rows probes_IGrn) controls_neg
      ["s1"%string] [data_neg] 3 (Fin (5 / 100)) = Ok c /\
    neg_means_grn (Pipeline.background c) = Fin 100 /\
    Pipeline.intensities_A c = [[Fin 1]] /\
    Pipeline.intensities_B c = [[Fin 1]].
Proof.
  cbn. replace (0 + 1) with 1 by lra. rdecide. repeat split.
  - unfold censor_group, kept. cbn. now rdecide.
  - destruct run_data_neg as (c & Hrun & _ & Hneg & HA & HB).
    exists c. repeat split; assumption.
Qed.

(** C5 (failing input).  The first run on a freshly loaded probe table
    returns, and leaves the caller's table indexed by the probe
    identifiers, without its column ['Unnamed: 0']; the second run on that
    same table stops on [KeyError]. *)
Theorem second_run_on_same_probes_raises :
  exists c : Pipeline.Computed,
    DNAm.preprocess_ratios ppf_scenario data_neg probes_IGrn controls_neg
      ["s1"%string] 3 (Fin (5 / 100)) = Ok c /\
    Pipeline.probes_after c <> probes_IGrn /\
    DNAm.preprocess_ratios ppf_scenario data_neg (Pipeline.probes_after c)
      controls_neg ["s1"%string] 3 (Fin (5 / 100)) = Raise KeyError.
Proof.
  destruct run_data_neg as (c & Hrun & Hp & _).
  exists c. split; [exact Hrun|]. rewrite Hp. split; [discriminate|].
  unfold DNAm.preprocess_ratios, Pipeline.ratios, Pipeline.check_arguments.
  cbn. rdecide. reflexivity.
Qed.

(** ** Missing negative controls *)

Lemma dropna_all_nan (l : column) :
  Forall (fun x => isnan x = true) l -> dropna l = [].
Proof.
  induction 1 as [|x l Hx _ IH]; simpl; [reflexivity|].
  now rewrite Hx.
Qed.

(** C7 (as the code has it).  When the negative-control beads of a sample
    column are absent or all missing in both channels, the statistics the
    loop body computes are NaN, and the three thresholds computed from them
    are NaN; these computations raise nothing. *)
Theorem missing_negative_controls_give_nan_thresholds
    (controls : list ControlRow) (cgrn cred : column) (z : float64) :
  Forall (fun x => isnan x = true) (select (neg_mask controls) cgrn) ->
  Forall (fun x => isnan x = true) (select (neg_mask controls) cred) ->
  neg_stats controls cgrn = (NaN, NaN) /\
  neg_stats controls cred = (NaN, NaN) /\
  thresholds z
    {| neg_means_grn := fst (neg_stats controls cgrn);
       neg_sds_grn := snd (neg_stats controls cgrn);
       neg_means_red := fst (neg_stats controls cred);
       neg_sds_red := snd (neg_stats controls cred) |}
  = {| threshold_inf1grn := NaN; threshold_inf1red := NaN; threshold_II := NaN |}.
Proof.
  intros Hg Hr.
  assert (Eg : neg_stats controls cgrn = (NaN, NaN)).
  { unfold neg_stats, series_mean, series_std. now rewrite (dropna_all_nan _ Hg). }
  assert (Er : neg_stats controls cred = (NaN, NaN)).
  { unfold neg_stats, series_mean, series_std. now rewrite (dropna_all_nan _ Hr). }
  rewrite Eg, Er. repeat split.
Qed.

Lemma missing_negative_controls_give_nan_thresholds_witness :
  neg_stats controls_neg [NaN; NaN] = (NaN, NaN) /\
  thresholds z_scenario
    {| neg_means_grn := fst (neg_stats controls_neg [NaN; NaN]);
       neg_sds_grn := snd (neg_stats controls_neg [NaN; NaN]);
       neg_means_red := fst (neg_stats controls_neg [NaN; NaN]);
       neg_sds_red := snd (neg_stats controls_neg [NaN; NaN]) |}
  = {| threshold_inf1grn := NaN; threshold_inf1red := NaN; threshold_II := NaN |}.
Proof.
  assert (H : Forall (fun x => isnan x = true)
                (select (neg_mask controls_neg) [NaN; NaN])).
  { simpl. repeat constructor. }
  destruct (missing_negative_controls_give_nan_thresholds
              controls_neg [NaN; NaN] [NaN; NaN] z_scenario H H) as (Hs & _ & Ht).
  split; assumption.
Defined.

(** C7 (as stated) fails: a run whose two negative controls have no bead
    counted in either channel raises nothing; in either copy it returns
    with NaN background statistics and NaN thresholds. *)
Lemma missing_negative_controls_raise_nothing :
  exists c : Pipeline.Computed,
    DNAm.preprocess_ratios ppf_scenario data_neg_missing probes_IGrn controls_neg
      ["s1"%string] 3 (Fin (5 / 100)) = Ok c /\
    CH3.preprocess_ratios ppf_scenario (p_rows probes_IGrn) controls_neg
      ["s1"%string] [data_neg_missing] 3 (Fin (5 / 100)) = Ok c /\
    Pipeline.controls_grn c = [[NaN; NaN]] /\
    Pipeline.controls_red c = [[NaN; NaN]] /\
    Pipeline.background c
    = {| neg_means_grn := NaN; neg_sds_grn := NaN;
         neg_means_red := NaN; neg_sds_red := NaN |} /\
    Pipeline.detection_thresholds c
    = {| threshold_inf1grn := NaN; threshold_inf1red := NaN; threshold_II := NaN |}.
Proof.
  unfold DNAm.preprocess_ratios, CH3.preprocess_ratios, Pipeline.ratios,
    Pipeline.check_arguments.
  cbn. rdecide. cbn.
  eexists. split; [reflexivity|]. cbn. repeat split.
Qed.

(** ** Dye-bias correction *)

(** C6 (failing input).  Two samples, one Type II probe with [A = B = 1] in
    each.  The first sample's own factors are 1 and 1, the second sample's
    are 2 for green and 2/3 for red.  Each pass of the loop multiplies the
    Type II rows of both columns, so the first sample ends with [A = 2/3]
    and [B = 2] although its own factors are 1. *)
Theorem dye_bias_scales_every_sample_by_every_factor :
  corrections controls_norm [Fin 2] [Fin 2] = (Fin 1, Fin 1) /\
  corrections controls_norm [Fin 1] [Fin 3] = (Fin 2, Fin (2 / 3)) /\
  dye_bias probes_II controls_norm norm_grn norm_red ones_II ones_II
  = ([[Fin (2 / 3)]; [Fin (2 / 3)]], [[Fin 2]; [Fin 2]]).
Proof.
  unfold dye_bias, dye_bias_body, corrections, map2, series_mean. cbn.
  rdecide. cbn. rdecide. cbn. rdecide. cbn.
  replace ((0 + (0 + 2 + 2) / (1 + 1) / 2) / 1) with 1 by lra.
  replace ((0 + (0 + 1 + 3) / (1 + 1) / 3) / 1) with (2 / 3) by lra.
  replace ((0 + (0 + 1 + 3) / (1 + 1) / 1) / 1) with 2 by lra.
  replace (1 * 1 * (2 / 3)) with (2 / 3) by lra.
  replace (1 * 1 * 2) with 2 by lra.
  repeat split.
Qed.

(** ** Missingness on chromosome Y *)

Lemma select_app {A : Type} (m1 m2 : list bool) (l1 l2 : list A) :
  List.length m1 = List.length l1 ->
  select (m1 ++ m2) (l1 ++ l2) = select m1 l1 ++ select m2 l2.
Proof.
  revert l1. induction m1 as [|m m1 IH]; intros [|x l1] H; simpl in *; try lia.
  - reflexivity.
  - rewrite IH by lia. now destruct m.
Qed.

Lemma select_eqb_notin (k : string) (ids : list string) (col : column) :
  ~ In k ids -> select (map (String.eqb k) ids) col = [].
Proof.
  revert col. induction ids as [|i ids IH]; intros col H; simpl; [reflexivity|].
  destruct col as [|v col]; [reflexivity|].
  simpl in H. destruct (String.eqb_spec k i) as [->|_]; [tauto|].
  apply IH. tauto.
Qed.

(** With distinct probe identifiers, picking rows by the identifiers of the
    probes that pass a test is picking the rows of those probes. *)
Lemma loc_ids_mask (test : ProbeRow -> bool) (rows pre : list ProbeRow)
    (cpre col : column) :
  NoDup (map probe_id (pre ++ rows)) ->
  List.length cpre = List.length pre ->
  List.length col = List.length rows ->
  loc_ids (map probe_id (pre ++ rows)) (cpre ++ col) (map probe_id (filter test rows))
  = select (map test rows) col.
Proof.
  revert pre cpre col.
  induction rows as [|r rows IH]; intros pre cpre col Hnd Hpre Hcol.
  - reflexivity.
  - destruct col as [|v col]; [discriminate|]. simpl in Hcol.
    assert (Hnot : ~ In (probe_id r) (map probe_id pre ++ map probe_id rows)).
    { rewrite map_app in Hnd. simpl in Hnd. now apply NoDup_remove_2 in Hnd. }
    assert (Hrest :
      loc_ids (map probe_id (pre ++ r :: rows)) (cpre ++ v :: col)
        (map probe_id (filter test rows))
      = select (map test rows) col).
    { replace (pre ++ r :: rows) with ((pre ++ [r]) ++ rows)
        by now rewrite <- app_assoc.
      replace (cpre ++ v :: col) with ((cpre ++ [v]) ++ col)
        by now rewrite <- app_assoc.
      apply IH.
      - now rewrite <- app_assoc.
      - rewrite !length_app. simpl. lia.
      - lia. }
    change (filter test (r :: rows))
      with (if test r then r :: filter test rows else filter test rows).
    change (map test (r :: rows)) with (test r :: map test rows).
    destruct (test r); [|exact Hrest].
    unfold loc_ids in *. cbn [map flat_map select]. rewrite Hrest.
    f_equal.
    rewrite !map_app. cbn [map].
    rewrite select_app by (rewrite !length_map; lia).
    rewrite select_eqb_notin by (intro; apply Hnot, in_or_app; now left).
    cbn [select app]. rewrite String.eqb_refl.
    rewrite select_eqb_notin by (intro; apply Hnot, in_or_app; now right).
    reflexivity.
Qed.

Lemma filter_isnan_all (l : column) :
  Forall (fun x => isnan x = true) l -> filter isnan l = l.
Proof.
  induction 1 as [|x l Hx _ IH]; simpl; [reflexivity|].
  now rewrite Hx, IH.
Qed.

(** C9.  With distinct probe identifiers and at least one probe on
    chromosome Y, [missing_chrY] of a sample is the number of chromosome Y
    probes whose ratio is missing divided by the number of chromosome Y
    probes; it is 1 when all of them are missing. *)
Theorem missing_chrY_is_fraction (probes : ProbesTable) (dnam_col : column) :
  NoDup (map probe_id (p_rows probes)) ->
  List.length dnam_col = List.length (p_rows probes) ->
  select (map (fun r => String.eqb (chr r) "Y") (p_rows probes)) dnam_col <> [] ->
  missing_chrY probes dnam_col
  = Fin (INR (List.length
                (filter isnan
                   (select (map (fun r => String.eqb (chr r) "Y") (p_rows probes))
                           dnam_col)))
         / INR (List.length
                  (select (map (fun r => String.eqb (chr r) "Y") (p_rows probes))
                          dnam_col))) /\
  (Forall (fun x => isnan x = true)
     (select (map (fun r => String.eqb (chr r) "Y") (p_rows probes)) dnam_col) ->
   missing_chrY probes dnam_col = Fin 1).
Proof.
  intros Hnd Hlen Hne.
  unfold missing_chrY, idy.
  pose proof (loc_ids_mask (fun r => String.eqb (chr r) "Y") (p_rows probes) [] []
                dnam_col Hnd eq_refl Hlen) as Hloc.
  cbn [app] in Hloc. rewrite Hloc. clear Hloc.
  set (betas := select _ dnam_col) in *.
  assert (E : isna_mean betas
              = Fin (INR (List.length (filter isnan betas)) / INR (List.length betas))).
  { unfold isna_mean. destruct betas; [contradiction|reflexivity]. }
  split; [exact E|].
  intro Hall. rewrite E, (filter_isnan_all _ Hall). f_equal.
  apply Rinv_r. apply not_0_INR.
  destruct betas; [contradiction|discriminate].
Qed.

(** All the chromosome Y ratios missing gives 1; one of the two gives 1/2. *)
Lemma missing_chrY_is_fraction_witness :
  missing_chrY probes_Y [NaN; Fin (1 / 2); NaN] = Fin 1 /\
  missing_chrY probes_Y [NaN; NaN; Fin (1 / 2)] = Fin (INR 1 / INR 2).
Proof.
  assert (Hnd : NoDup (map probe_id (p_rows probes_Y))).
  { simpl. repeat constructor; simpl; intuition discriminate. }
  split.
  - refine (proj2 (missing_chrY_is_fraction probes_Y [NaN; Fin (1 / 2); NaN]
                     Hnd eq_refl _) _).
    + simpl. discriminate.
    + simpl. repeat constructor.
  - refine (proj1 (missing_chrY_is_fraction probes_Y [NaN; NaN; Fin (1 / 2)]
                     Hnd eq_refl _)).
    simpl. discriminate.
Defined.

(** ** What the loops leave behind *)



(** ** What the dye-bias loop leaves alone *)

Lemma scale_where_nth (mask : list bool) (k : float64) (col : column) (i : nat) :
  nth i mask false = false ->
  nth i (scale_where mask k col) NaN = nth i col NaN.
Proof.
  revert col i. induction mask as [|m mask IH]; intros col i H; simpl.
  - reflexivity.
  - destruct col as [|v col]; [reflexivity|].
    destruct i as [|i]; simpl in *.
    + now rewrite H.
    + now apply IH.
Qed.

Lemma scale_where_one (mask : list bool) (col : column) :
  scale_where mask (Fin 1) col = col.
Proof.
  revert col. induction mask as [|m mask IH]; intros [|v col]; simpl; trivial.
  rewrite IH. destruct m; [now rewrite mul_one_r | reflexivity].
Qed.

(** A pass of the loop whose two factors are exactly 1.0 changes nothing. *)
Lemma dye_bias_body_factors_one (probes : ProbesTable) (controls : list ControlRow)
    (A B : matrix) (cc : column * column) :
  corrections controls (fst cc) (snd cc) = (Fin 1, Fin 1) ->
  dye_bias_body probes controls (A, B) cc = (A, B).
Proof.
  intro H. unfold dye_bias_body. rewrite H. simpl.
  assert (Hid : forall M : matrix,
             map (scale_where (type_mask probes "II") (Fin 1)) M = M).
  { intro M. rewrite <- (map_id M) at 2. apply map_ext. intro col.
    apply scale_where_one. }
  now rewrite !Hid.
Qed.

(** A probe that is not of Type II keeps its two intensities in every
    sample through the whole dye-bias loop. *)
Lemma dye_bias_keeps_other_types (probes : ProbesTable) (controls : list ControlRow)
    (cc : list (column * column)) (A B : matrix) (i j : nat) :
  nth i (type_mask probes "II") false = false ->
  nth i (nth j (fst (fold_left (dye_bias_body probes controls) cc (A, B))) []) NaN
  = nth i (nth j A []) NaN /\
  nth i (nth j (snd (fold_left (dye_bias_body probes controls) cc (A, B))) []) NaN
  = nth i (nth j B []) NaN.
Proof.
  intro Hi.
  assert (Hcol : forall k (M : matrix),
             nth i (nth j (map (scale_where (type_mask probes "II") k) M) []) NaN
             = nth i (nth j M []) NaN).
  { intros k M.
    destruct (Nat.lt_ge_cases j (List.length M)) as [Hj|Hj].
    - rewrite nth_indep with (d' := scale_where (type_mask probes "II") k [])
        by now rewrite length_map.
      rewrite map_nth. now apply scale_where_nth.
    - rewrite (nth_overflow (map _ M)) by (rewrite length_map; lia).
      now rewrite (nth_overflow M) by lia. }
  revert A B.
  induction cc as [|c cc IH]; intros A B; simpl; [now split|].
  destruct (IH (fst (dye_bias_body probes controls (A, B) c))
               (snd (dye_bias_body probes controls (A, B) c))) as [HA HB].
  rewrite <- surjective_pairing in HA, HB.
  rewrite HA, HB. unfold dye_bias_body. simpl.
  now rewrite !Hcol.
Qed.

(** * Further properties of the stages *)

(** ** Loops that may raise *)

Lemma for_each_ok {A B : Type} (f : A -> result B) (g : A -> B) (l : list A) :
  (forall x, In x l -> f x = Ok (g x)) -> for_each f l = Ok (map g l).
Proof.
  induction l as [|a l IH]; intro H; simpl; [reflexivity|].
  rewrite (H a) by now left. simpl.
  rewrite IH by (intros x Hx; apply H; now right). reflexivity.
Qed.

Lemma for_each_raises {A B : Type} (f : A -> result B) (l : list A) (x : A)
    (e : error) :
  In x l -> f x = Raise e ->
  (forall y e', In y l -> f y = Raise e' -> e' = e) ->
  for_each f l = Raise e.
Proof.
  induction l as [|a l IH]; intros Hin Hx Hall; [contradiction|].
  simpl. destruct (f a) as [b|e'] eqn:Ea; simpl.
  - destruct Hin as [->|Hin]; [congruence|].
    rewrite IH; trivial. intros y e' Hy. apply Hall. now right.
  - f_equal. apply (Hall a); [now left | assumption].
Qed.

Lemma select_map {A B : Type} (f : A -> B) (mask : list bool) (l : list A) :
  select mask (map f l) = map f (select mask l).
Proof.
  revert l. induction mask as [|m mask IH]; intros [|x l]; simpl; trivial.
  destruct m; simpl; now rewrite IH.
Qed.

Lemma select_In {A : Type} (mask : list bool) (l : list A) (x : A) :
  In x (select mask l) -> In x l.
Proof.
  revert l. induction mask as [|m mask IH]; intros l H.
  - destruct l; contradiction.
  - destruct l as [|y l]; [contradiction|]. simpl in H.
    destruct m; [destruct H as [H|H]; [now left|]|]; right; now apply IH.
Qed.

(** ** Intensity extraction *)

Lemma data_loc_inv (data : BeadTable) (positions : list nat) (l : list BeadRow)
    (d0 : BeadRow) :
  data_loc data (map LInt positions) = Ok l ->
  l = map (fun i => nth i data d0) positions.
Proof.
  unfold data_loc. revert l.
  induction positions as [|i positions IH]; intros l H; simpl in H.
  - now injection H as <-.
  - destruct (nth_error data i) as [r|] eqn:Ei; [simpl in H | discriminate H].
    destruct (for_each _ (map LInt positions)) as [l'|] eqn:El;
      [simpl in H | discriminate H].
    injection H as <-. simpl. f_equal.
    + symmetry. now apply nth_error_nth.
    + now apply IH.
Qed.

Lemma length_assign_where (mask : list bool) (col vals : column) :
  List.length (assign_where mask col vals) = List.length col.
Proof.
  revert col vals. induction mask as [|m mask IH]; intros [|c col] vals; simpl; trivial.
  destruct m; [destruct vals|]; simpl; now rewrite IH.
Qed.

Lemma assign_where_nth {X : Type} (F : X -> float64) (dX : X) (mask : list bool)
    (col : column) (L : list X) (i : nat) :
  List.length L = List.length mask -> List.length col = List.length mask ->
  (i < List.length mask)%nat ->
  nth i (assign_where mask col (map F (select mask L))) NaN
  = if nth i mask false then F (nth i L dX) else nth i col NaN.
Proof.
  revert col L i.
  induction mask as [|m mask IH]; intros col L i HL Hc Hi; simpl in Hi; [lia|].
  destruct col as [|c col]; [discriminate|].
  destruct L as [|x L]; [discriminate|].
  simpl in HL, Hc.
  destruct m; simpl; (destruct i as [|i]; [reflexivity|]); apply IH; lia.
Qed.

Lemma type_mask_nth (probes : ProbesTable) (t : string) (i : nat) (r0 : ProbeRow) :
  (i < List.length (p_rows probes))%nat ->
  nth i (type_mask probes t) false = String.eqb (ptype (nth i (p_rows probes) r0)) t.
Proof.
  intro Hi. unfold type_mask.
  rewrite nth_indep with (d' := String.eqb (ptype r0) t) by now rewrite length_map.
  apply (map_nth (fun r => String.eqb (ptype r) t)).
Qed.

(** The cells of the two extraction loops.  Probe [i] of a freshly loaded
    manifest reads row [i] of the bead table, whatever its two addresses
    are. *)
Lemma fill_cells
    (cg cr ci : BeadRow -> float64) (probes : ProbesTable) (data : BeadTable)
    (col col' : column) (i : nat) (r0 : ProbeRow) (d0 : BeadRow) :
  p_index probes = RangeIndex ->
  List.length col = List.length (p_rows probes) ->
  (i < List.length (p_rows probes))%nat ->
  (g <- data_loc data (index_of_type probes "I-Grn") ;;
   let col := assign_where (type_mask probes "I-Grn") col (map cg g) in
   r <- data_loc data (index_of_type probes "I-Red") ;;
   let col := assign_where (type_mask probes "I-Red") col (map cr r) in
   i <- data_loc data (index_of_type probes "II") ;;
   Ok (assign_where (type_mask probes "II") col (map ci i))) = Ok col' ->
  nth i col' NaN
  = if String.eqb (ptype (nth i (p_rows probes) r0)) "II"
    then ci (nth i data d0)
    else if String.eqb (ptype (nth i (p_rows probes) r0)) "I-Red"
         then cr (nth i data d0)
         else if String.eqb (ptype (nth i (p_rows probes) r0)) "I-Grn"
              then cg (nth i data d0)
              else nth i col NaN.
Proof.
  intros Hidx Hcol Hi H.
  unfold index_of_type, probes_index in H. rewrite Hidx in H.
  rewrite !select_map in H.
  set (n := List.length (p_rows probes)) in *.
  destruct (data_loc data (map LInt (select (type_mask probes "I-Grn") (seq 0 n))))
    as [g|] eqn:Eg; [simpl in H | discriminate H].
  destruct (data_loc data (map LInt (select (type_mask probes "I-Red") (seq 0 n))))
    as [r|] eqn:Er; [simpl in H | discriminate H].
  destruct (data_loc data (map LInt (select (type_mask probes "II") (seq 0 n))))
    as [t|] eqn:Et; [simpl in H | discriminate H].
  injection H as <-.
  rewrite (data_loc_inv _ _ _ d0 Eg), (data_loc_inv _ _ _ d0 Er),
    (data_loc_inv _ _ _ d0 Et), !map_map.
  assert (Hm : forall t, List.length (type_mask probes t) = n)
    by (intro; unfold type_mask; now rewrite length_map).
  rewrite (assign_where_nth (fun i => ci (nth i data d0)) 0%nat)
    by (rewrite ?length_assign_where, ?length_seq, ?Hm; lia).
  rewrite (assign_where_nth (fun i => cr (nth i data d0)) 0%nat)
    by (rewrite ?length_assign_where, ?length_seq, ?Hm; lia).
  rewrite (assign_where_nth (fun i => cg (nth i data d0)) 0%nat)
    by (rewrite ?length_assign_where, ?length_seq, ?Hm; lia).
  rewrite !(type_mask_nth probes _ i r0) by assumption.
  rewrite seq_nth by assumption. reflexivity.
Qed.

(** X2.  On a freshly loaded manifest, the A intensity of probe [i] is read
    from row [i] of the bead table: the green mean under the green count
    for Type II and I-Grn, the red mean under the red count for I-Red; a
    probe of another type keeps the cell it had. *)
Theorem fill_A_reads_manifest_row (min_beads : Z) (probes : ProbesTable)
    (data : BeadTable) (col col' : column) (i : nat) (r0 : ProbeRow) (d0 : BeadRow) :
  p_index probes = RangeIndex ->
  List.length col = List.length (p_rows probes) ->
  (i < List.length (p_rows probes))%nat ->
  fill_A min_beads probes data col = Ok col' ->
  nth i col' NaN
  = if String.eqb (ptype (nth i (p_rows probes) r0)) "II"
    then where_ge (grn_n (nth i data d0)) min_beads (grn_mean (nth i data d0))
    else if String.eqb (ptype (nth i (p_rows probes) r0)) "I-Red"
         then where_ge (red_n (nth i data d0)) min_beads (red_mean (nth i data d0))
         else if String.eqb (ptype (nth i (p_rows probes) r0)) "I-Grn"
              then where_ge (grn_n (nth i data d0)) min_beads
                     (grn_mean (nth i data d0))
              else nth i col NaN.
Proof.
  intros Hidx Hcol Hi H.
  exact (fill_cells _ _ _ probes data col col' i r0 d0 Hidx Hcol Hi H).
Qed.

Lemma fill_A_reads_manifest_row_witness :
  nth 0 [Fin 111] NaN = where_ge 5 3 (Fin 111).
Proof.
  exact (fill_A_reads_manifest_row 3 probes_II data_II [NaN] [Fin 111] 0
           (probe "" "" "" 0 0) (bead 0 0 0 0) eq_refl eq_refl (Nat.lt_0_succ 0) eq_refl).
Defined.

(** X3.  The B intensity of probe [i] is read from the same row [i]: for
    Type II it is the green mean again, kept when the red count reaches
    [min_beads]; for the two Type I chemistries it is what the A intensity
    is. *)
Theorem fill_B_reads_manifest_row (min_beads : Z) (probes : ProbesTable)
    (data : BeadTable) (col col' : column) (i : nat) (r0 : ProbeRow) (d0 : BeadRow) :
  p_index probes = RangeIndex ->
  List.length col = List.length (p_rows probes) ->
  (i < List.length (p_rows probes))%nat ->
  fill_B min_beads probes data col = Ok col' ->
  nth i col' NaN
  = if String.eqb (ptype (nth i (p_rows probes) r0)) "II"
    then where_ge (red_n (nth i data d0)) min_beads (grn_mean (nth i data d0))
    else if String.eqb (ptype (nth i (p_rows probes) r0)) "I-Red"
         then where_ge (red_n (nth i data d0)) min_beads (red_mean (nth i data d0))
         else if String.eqb (ptype (nth i (p_rows probes) r0)) "I-Grn"
              then where_ge (grn_n (nth i data d0)) min_beads
                     (grn_mean (nth i data d0))
              else nth i col NaN.
Proof.
  intros Hidx Hcol Hi H.
  exact (fill_cells _ _ _ probes data col col' i r0 d0 Hidx Hcol Hi H).
Qed.

Lemma fill_B_reads_manifest_row_witness :
  nth 0 [Fin 111] NaN = where_ge 5 3 (Fin 111).
Proof.
  exact (fill_B_reads_manifest_row 3 probes_II data_II [NaN] [Fin 111] 0
           (probe "" "" "" 0 0) (bead 0 0 0 0) eq_refl eq_refl (Nat.lt_0_succ 0) eq_refl).
Defined.

(** X4.  A probe of one of the three chemistries whose bead row has fewer
    than [min_beads] beads counted in both channels has a missing A and a
    missing B intensity, whatever the means are. *)
Theorem extraction_below_min_beads_is_missing (min_beads : Z) (probes : ProbesTable)
    (data : BeadTable) (col a b : column) (i : nat) (r0 : ProbeRow) (d0 : BeadRow) :
  p_index probes = RangeIndex ->
  List.length col = List.length (p_rows probes) ->
  (i < List.length (p_rows probes))%nat ->
  fill_A min_beads probes data col = Ok a ->
  fill_B min_beads probes data col = Ok b ->
  In (ptype (nth i (p_rows probes) r0)) ["I-Grn"; "I-Red"; "II"]%string ->
  (grn_n (nth i data d0) < min_beads)%Z ->
  (red_n (nth i data d0) < min_beads)%Z ->
  nth i a NaN = NaN /\ nth i b NaN = NaN.
Proof.
  intros Hidx Hcol Hi Ha Hb Ht Hg Hr.
  rewrite (fill_cells _ _ _ probes data col a i r0 d0 Hidx Hcol Hi Ha).
  rewrite (fill_cells _ _ _ probes data col b i r0 d0 Hidx Hcol Hi Hb).
  unfold where_ge.
  apply Z.leb_gt in Hg, Hr. rewrite Hg, Hr.
  destruct Ht as [<-|[<-|[<-|[]]]]; simpl; now split.
Qed.

Lemma extraction_below_min_beads_is_missing_witness :
  nth 0 [NaN] NaN = NaN /\ nth 0 [NaN] NaN = NaN.
Proof.
  refine (extraction_below_min_beads_is_missing 3 probes_II data_low [Fin 7]
            [NaN] [NaN] 0 (probe "" "" "" 0 0) (bead 0 0 0 0)
            eq_refl eq_refl (Nat.lt_0_succ 0) eq_refl eq_refl _ _ _).
  - simpl. tauto.
  - simpl. lia.
  - simpl. lia.
Defined.



Lemma data_loc_cases (data : BeadTable) (labels : list label) :
  (exists l, data_loc data labels = Ok l) \/ data_loc data labels = Raise KeyError.
Proof.
  unfold data_loc. induction labels as [|a labels IH]; simpl.
  - left. now exists [].
  - destruct a as [i|s]; [|now right].
    destruct (nth_error data i); [|now right]. simpl.
    destruct IH as [[l ->] | ->]; simpl; [left; eauto | now right].
Qed.

Lemma data_loc_in_range (data : BeadTable) (labels : list label)
    (l : list BeadRow) (i : nat) :
  data_loc data labels = Ok l -> In (LInt i) labels -> (i < List.length data)%nat.
Proof.
  unfold data_loc. revert l.
  induction labels as [|a labels IH]; intros l H Hin; [contradiction|].
  simpl in H.
  destruct a as [k|s]; [|discriminate H].
  destruct (nth_error data k) as [r|] eqn:Ek; [simpl in H | discriminate H].
  destruct (for_each _ labels) as [l'|] eqn:El; [|discriminate H].
  destruct Hin as [Hin|Hin].
  - injection Hin as ->. apply nth_error_Some. congruence.
  - now apply (IH l').
Qed.

Lemma select_nth_In {A : Type} (mask : list bool) (L : list A) (i : nat) (d : A) :
  nth i mask false = true -> (i < List.length L)%nat ->
  In (nth i L d) (select mask L).
Proof.
  revert L i. induction mask as [|m mask IH]; intros L i Hm Hi.
  - destruct i; discriminate.
  - destruct L as [|x L]; [simpl in Hi; lia|].
    destruct i as [|i]; simpl in *.
    + rewrite Hm. now left.
    + destruct m; [right|]; apply IH; trivial; lia.
Qed.

Lemma index_of_type_In (probes : ProbesTable) (t : string) (i : nat) (r0 : ProbeRow) :
  p_index probes = RangeIndex ->
  (i < List.length (p_rows probes))%nat ->
  ptype (nth i (p_rows probes) r0) = t ->
  In (LInt i) (index_of_type probes t).
Proof.
  intros Hidx Hi Ht. unfold index_of_type, probes_index. rewrite Hidx.
  replace (LInt i)
    with (nth i (map LInt (seq 0 (List.length (p_rows probes)))) (LInt 0)).
  - apply select_nth_In.
    + rewrite (type_mask_nth probes t i r0 Hi), Ht. apply String.eqb_refl.
    + now rewrite length_map, length_seq.
  - rewrite (map_nth LInt), seq_nth by assumption. reflexivity.
Qed.

(** X6.  When the bead table has no row at the manifest position of a
    probe of one of the three chemistries, both extraction loops stop on
    [KeyError]. *)
Theorem extraction_short_bead_table_raises (min_beads : Z) (probes : ProbesTable)
    (data : BeadTable) (col : column) (i : nat) (r0 : ProbeRow) :
  p_index probes = RangeIndex ->
  (i < List.length (p_rows probes))%nat ->
  In (ptype (nth i (p_rows probes) r0)) ["I-Grn"; "I-Red"; "II"]%string ->
  (List.length data <= i)%nat ->
  fill_A min_beads probes data col = Raise KeyError /\
  fill_B min_beads probes data col = Raise KeyError.
Proof.
  intros Hidx Hi Ht Hshort.
  assert (Hno : forall t l, ptype (nth i (p_rows probes) r0) = t ->
                  data_loc data (index_of_type probes t) <> Ok l).
  { intros t l Et H.
    pose proof (data_loc_in_range _ _ _ i H (index_of_type_In _ _ _ r0 Hidx Hi Et)).
    lia. }
  unfold fill_A, fill_B, ad_a_grn, ad_b_grn, ad_a_red, ad_b_red, ad_a_inf.
  destruct (data_loc_cases data (index_of_type probes "I-Grn")) as [[g Eg]|Eg];
    rewrite Eg; simpl; [|now split].
  destruct (data_loc_cases data (index_of_type probes "I-Red")) as [[r Er]|Er];
    rewrite Er; simpl; [|now split].
  destruct (data_loc_cases data (index_of_type probes "II")) as [[t Et]|Et];
    rewrite Et; simpl; [|now split].
  exfalso.
  destruct Ht as [H|[H|[H|[]]]]; symmetry in H;
    [exact (Hno _ _ H Eg) | exact (Hno _ _ H Er) | exact (Hno _ _ H Et)].
Qed.

Lemma extraction_short_bead_table_raises_witness :
  fill_A 3 probes_II [] [NaN] = Raise KeyError /\
  fill_B 3 probes_II [] [NaN] = Raise KeyError.
Proof.
  refine (extraction_short_bead_table_raises 3 probes_II [] [NaN] 0
            (probe "" "" "" 0 0) eq_refl (Nat.lt_0_succ 0) _ (Nat.le_refl 0)).
  simpl. tauto.
Defined.

(** ** Arguments and samples *)

(** X7.  A run returns only for a finite [detection] in (0, 1] and a
    positive [min_beads]; otherwise it stops on [AssertionError] before
    anything else. *)
Theorem invalid_arguments_raise_assertion (norm_ppf : float64 -> float64)
    (probes : ProbesTable) (controls : list ControlRow) (sample_ids : list string)
    (data_list : list BeadTable) (min_beads : Z) (detection : float64) :
  (forall c, Pipeline.ratios norm_ppf probes controls sample_ids data_list
               min_beads detection = Ok c ->
             exists d, detection = Fin d /\ 0 < d <= 1 /\ (0 < min_beads)%Z) /\
  ((forall d, detection = Fin d -> ~ 0 < d <= 1) \/ (min_beads <= 0)%Z ->
   Pipeline.ratios norm_ppf probes controls sample_ids data_list
     min_beads detection = Raise AssertionError).
Proof.
  unfold Pipeline.ratios, Pipeline.check_arguments. split.
  - intros c H.
    destruct detection as [| | |d]; simpl in H; try discriminate H.
    unfold Rltb, Rleb in H.
    destruct (Rlt_dec 0 d); [|discriminate H].
    destruct (Rle_dec d 1); [|discriminate H].
    destruct (0 <? min_beads)%Z eqn:Em; [|discriminate H].
    exists d. repeat split; trivial. now apply Z.ltb_lt.
  - intros [Hd|Hm].
    + destruct detection as [| | |d]; simpl; trivial.
      specialize (Hd d eq_refl).
      unfold Rltb, Rleb.
      destruct (Rlt_dec 0 d); [|reflexivity].
      destruct (Rle_dec d 1); [|reflexivity].
      exfalso. apply Hd. now split.
    + apply Z.ltb_ge in Hm. rewrite Hm.
      destruct (negb (gt detection (Fin 0))); [reflexivity|].
      destruct (negb (le detection (Fin 1))); reflexivity.
Qed.

Lemma invalid_arguments_raise_assertion_witness :
  Pipeline.ratios ppf_scenario probes_IGrn controls_neg ["s1"%string] [data_neg]
    3 (Fin 2) = Raise AssertionError.
Proof.
  apply (proj2 (invalid_arguments_raise_assertion ppf_scenario probes_IGrn
                  controls_neg ["s1"%string] [data_neg] 3 (Fin 2))).
  left. intros d H. injection H as <-. lra.
Defined.

(** X8.  With valid arguments and no sample column, or no bead table, the
    run stops on [NameError]: the negative-control statistics are assigned
    only inside the loops over the samples. *)
Theorem no_sample_raises_name_error (norm_ppf : float64 -> float64)
    (probes : ProbesTable) (controls : list ControlRow) (sample_ids : list string)
    (data_list : list BeadTable) (min_beads : Z) (detection : float64) :
  Pipeline.check_arguments min_beads detection = Ok tt ->
  sample_ids = [] \/ data_list = [] ->
  Pipeline.ratios norm_ppf probes controls sample_ids data_list min_beads detection
  = Raise NameError.
Proof.
  intros Hargs H. unfold Pipeline.ratios. rewrite Hargs. simpl.
  destruct H as [-> | ->].
  - reflexivity.
  - destruct (nan_matrix (List.length (p_rows probes)) (List.length sample_ids));
      simpl;
      destruct (nan_matrix (List.length controls) (List.length sample_ids));
      reflexivity.
Qed.

Lemma no_sample_raises_name_error_witness :
  Pipeline.ratios ppf_scenario probes_IGrn controls_neg [] [data_neg] 3 (Fin 1)
  = Raise NameError.
Proof.
  apply no_sample_raises_name_error.
  - unfold Pipeline.check_arguments. simpl.
    rewrite Rltb_true, Rleb_true by lra. reflexivity.
  - left. reflexivity.
Defined.

(** ** Two runs *)

Ltac invert_bind_as H x E :=
  match type of H with
  | bind ?m _ = Ok _ => destruct m as [x|] eqn:E; [simpl in H | discriminate H]
  end.

Lemma fill_A_error (min_beads : Z) (probes : ProbesTable) (data : BeadTable)
    (col : column) (e : error) :
  fill_A min_beads probes data col = Raise e -> e = KeyError.
Proof.
  unfold fill_A.
  destruct (data_loc_cases data (ad_a_grn probes)) as [[g ->] | ->]; simpl;
    [|congruence].
  destruct (data_loc_cases data (ad_a_red probes)) as [[r ->] | ->]; simpl;
    [|congruence].
  destruct (data_loc_cases data (ad_a_inf probes)) as [[t ->] | ->]; simpl;
    congruence.
Qed.

Lemma fill_B_error (min_beads : Z) (probes : ProbesTable) (data : BeadTable)
    (col : column) (e : error) :
  fill_B min_beads probes data col = Raise e -> e = KeyError.
Proof.
  unfold fill_B.
  destruct (data_loc_cases data (ad_b_grn probes)) as [[g ->] | ->]; simpl;
    [|congruence].
  destruct (data_loc_cases data (ad_b_red probes)) as [[r ->] | ->]; simpl;
    [|congruence].
  destruct (data_loc_cases data (ad_a_inf probes)) as [[t ->] | ->]; simpl;
    congruence.
Qed.

Lemma zip_columns_error (body : BeadTable -> column -> result column)
    (M : matrix) (data_list : list BeadTable) (e : error) :
  (forall data col e', body data col = Raise e' -> e' = KeyError) ->
  zip_columns body M data_list = Raise e -> e = KeyError.
Proof.
  intro Hbody. revert data_list.
  induction M as [|col M IH]; intros data_list H; [discriminate H|].
  destruct data_list as [|data data_list]; [discriminate H|].
  simpl in H.
  destruct (body data col) as [col'|e'] eqn:Eb; simpl in H.
  - destruct (zip_columns body M data_list) as [rest|e'] eqn:Ez; simpl in H;
      [discriminate H|].
    injection H as <-. now apply (IH data_list).
  - injection H as <-. now apply (Hbody data col).
Qed.

(** X9.  A run that returns was given a probe table with its default index,
    and leaves that table indexed by the probe identifiers; a second run
    with the same arguments on the table it left stops on [KeyError]. *)
Theorem second_run_raises_key_error (norm_ppf : float64 -> float64)
    (probes : ProbesTable) (controls : list ControlRow) (sample_ids : list string)
    (data_list : list BeadTable) (min_beads : Z) (detection : float64)
    (c : Pipeline.Computed) :
  Pipeline.ratios norm_ppf probes controls sample_ids data_list min_beads detection
  = Ok c ->
  p_index probes = RangeIndex /\
  Pipeline.probes_after c = {| p_index := NameIndex; p_rows := p_rows probes |} /\
  Pipeline.ratios norm_ppf (Pipeline.probes_after c) controls sample_ids data_list
    min_beads detection = Raise KeyError.
Proof.
  unfold Pipeline.ratios. intro H.
  invert_bind_as H u Echeck.
  invert_bind_as H A EA. invert_bind_as H B EB.
  invert_bind_as H g Eg. invert_bind_as H r Er.
  invert_bind_as H ng Eng. invert_bind_as H nr Enr.
  unfold set_index_unnamed0 in H.
  destruct (p_index probes) eqn:Hidx; [simpl in H | discriminate H].
  injection H as <-. cbn [Pipeline.probes_after].
  split; [reflexivity|]. split; [reflexivity|].
  cbn [bind p_rows].
  set (probes' := {| p_index := NameIndex; p_rows := p_rows probes |}).
  destruct (zip_columns (fill_A min_beads probes') _ data_list) as [A'|e] eqn:EA';
    simpl.
  2:{ f_equal. apply (zip_columns_error _ _ _ _ (fill_A_error min_beads probes') EA'). }
  destruct (zip_columns (fill_B min_beads probes') _ data_list) as [B'|e] eqn:EB';
    simpl.
  2:{ f_equal. apply (zip_columns_error _ _ _ _ (fill_B_error min_beads probes') EB'). }
  rewrite Eng, Enr. reflexivity.
Qed.

Lemma second_run_raises_key_error_witness :
  exists c : Pipeline.Computed,
    Pipeline.ratios ppf_scenario probes_IGrn controls_neg ["s1"%string] [data_neg]
      3 (Fin (5 / 100)) = Ok c /\
    Pipeline.ratios ppf_scenario (Pipeline.probes_after c) controls_neg
      ["s1"%string] [data_neg] 3 (Fin (5 / 100)) = Raise KeyError.
Proof.
  destruct run_data_neg as (c & Hrun & _).
  exists c. split; [exact Hrun|].
  exact (proj2 (proj2 (second_run_raises_key_error _ _ _ _ _ _ _ _ Hrun))).
Defined.

(** X10.  Neither the detection p-value nor the quantile function has any
    effect on what a run returns in its matrices: two runs that differ only
    in them return the same intensities, control intensities and ratios. *)
Theorem detection_has_no_effect (norm_ppf1 norm_ppf2 : float64 -> float64)
    (probes : ProbesTable) (controls : list ControlRow) (sample_ids : list string)
    (data_list : list BeadTable) (min_beads : Z) (detection1 detection2 : float64)
    (c1 c2 : Pipeline.Computed) :
  Pipeline.ratios norm_ppf1 probes controls sample_ids data_list min_beads detection1
  = Ok c1 ->
  Pipeline.ratios norm_ppf2 probes controls sample_ids data_list min_beads detection2
  = Ok c2 ->
  Pipeline.intensities_A c1 = Pipeline.intensities_A c2 /\
  Pipeline.intensities_B c1 = Pipeline.intensities_B c2 /\
  Pipeline.controls_grn c1 = Pipeline.controls_grn c2 /\
  Pipeline.controls_red c1 = Pipeline.controls_red c2 /\
  Pipeline.dnam c1 = Pipeline.dnam c2.
Proof.
  unfold Pipeline.ratios. intros H1 H2.
  invert_bind_as H1 u1 Echeck1. invert_bind_as H2 u2 Echeck2.
  invert_bind_as H1 A EA. try rewrite EA in H2. simpl in H2.
  invert_bind_as H1 B EB. try rewrite EB in H2. simpl in H2.
  invert_bind_as H1 g Eg. try rewrite Eg in H2. simpl in H2.
  invert_bind_as H1 r Er. try rewrite Er in H2. simpl in H2.
  invert_bind_as H1 ng Eng. try rewrite Eng in H2. simpl in H2.
  invert_bind_as H1 nr Enr. try rewrite Enr in H2. simpl in H2.
  invert_bind_as H1 probes' Ep. try rewrite Ep in H2. simpl in H2.
  rewrite !censor_loop_intensities in H1, H2.
  injection H1 as <-. injection H2 as <-. simpl.
  repeat split.
Qed.

Lemma detection_has_no_effect_witness :
  exists c1 c2 : Pipeline.Computed,
    Pipeline.ratios ppf_scenario probes_IGrn controls_neg ["s1"%string] [data_neg]
      3 (Fin (5 / 100)) = Ok c1 /\
    Pipeline.ratios (fun p => p) probes_IGrn controls_neg ["s1"%string] [data_neg]
      3 (Fin 1) = Ok c2 /\
    Pipeline.intensities_A c1 = Pipeline.intensities_A c2 /\
    Pipeline.dnam c1 = Pipeline.dnam c2.
Proof.
  destruct run_data_neg as (c1 & Hrun & _).
  destruct (Pipeline.ratios (fun p => p) probes_IGrn controls_neg ["s1"%string]
              [data_neg] 3 (Fin 1)) as [c2|e] eqn:E2.
  - exists c1, c2. split; [exact Hrun|]. split; [reflexivity|].
    destruct (detection_has_no_effect _ _ _ _ _ _ _ _ _ _ _ Hrun E2)
      as (HA & _ & _ & _ & Hd).
    now split.
  - exfalso. revert E2. unfold Pipeline.ratios, Pipeline.check_arguments.
    cbn. rdecide. cbn. discriminate.
Defined.

(** ** One set of thresholds *)



(** ** Dye-bias correction *)

Lemma length_scale_where (mask : list bool) (k : float64) (col : column) :
  List.length (scale_where mask k col) = List.length col.
Proof.
  revert col. induction mask as [|m mask IH]; intros [|c col]; simpl; trivial.
  now rewrite IH.
Qed.

Lemma scale_where_nth_true (mask : list bool) (k : float64) (col : column) (i : nat) :
  nth i mask false = true -> (i < List.length col)%nat ->
  nth i (scale_where mask k col) NaN = mul (nth i col NaN) k.
Proof.
  revert col i. induction mask as [|m mask IH]; intros col i Hm Hi.
  - destruct i; discriminate.
  - destruct col as [|v col]; [simpl in Hi; lia|].
    destruct i as [|i]; simpl in *.
    + now rewrite Hm.
    + apply IH; trivial; lia.
Qed.

Lemma nth_map_matrix (f : column -> column) (M : matrix) (j : nat) :
  (j < List.length M)%nat -> nth j (map f M) [] = f (nth j M []).
Proof.
  intro Hj. rewrite nth_indep with (d' := f []) by now rewrite length_map.
  apply map_nth.
Qed.

Lemma dye_bias_fold_product (probes : ProbesTable) (controls : list ControlRow)
    (cc : list (column * column)) (A B : matrix) (i j : nat) :
  nth i (type_mask probes "II") false = true ->
  (j < List.length A)%nat -> (i < List.length (nth j A []))%nat ->
  (j < List.length B)%nat -> (i < List.length (nth j B []))%nat ->
  nth i (nth j (fst (fold_left (dye_bias_body probes controls) cc (A, B))) []) NaN
  = fold_left mul
      (map (fun c => snd (corrections controls (fst c) (snd c))) cc)
      (nth i (nth j A []) NaN) /\
  nth i (nth j (snd (fold_left (dye_bias_body probes controls) cc (A, B))) []) NaN
  = fold_left mul
      (map (fun c => fst (corrections controls (fst c) (snd c))) cc)
      (nth i (nth j B []) NaN).
Proof.
  intro Hm. revert A B.
  induction cc as [|c cc IH]; intros A B HjA HiA HjB HiB; [now split|].
  cbn [fold_left map].
  change (dye_bias_body probes controls (A, B) c)
    with (map (scale_where (type_mask probes "II")
                 (snd (corrections controls (fst c) (snd c)))) A,
          map (scale_where (type_mask probes "II")
                 (fst (corrections controls (fst c) (snd c)))) B).
  set (kr := snd (corrections controls (fst c) (snd c))).
  set (kg := fst (corrections controls (fst c) (snd c))).
  assert (HjA' : (j < List.length (map (scale_where (type_mask probes "II") kr) A))%nat)
    by now rewrite length_map.
  assert (HjB' : (j < List.length (map (scale_where (type_mask probes "II") kg) B))%nat)
    by now rewrite length_map.
  assert (HiA' : (i < List.length
                        (nth j (map (scale_where (type_mask probes "II") kr) A) []))%nat)
    by (rewrite nth_map_matrix, length_scale_where; assumption).
  assert (HiB' : (i < List.length
                        (nth j (map (scale_where (type_mask probes "II") kg) B) []))%nat)
    by (rewrite nth_map_matrix, length_scale_where; assumption).
  destruct (IH _ _ HjA' HiA' HjB' HiB') as [HA HB].
  split.
  - etransitivity; [exact HA|].
    now rewrite nth_map_matrix, scale_where_nth_true by assumption.
  - etransitivity; [exact HB|].
    now rewrite nth_map_matrix, scale_where_nth_true by assumption.
Qed.

(** X12.  Through the dye-bias loop a probe that is not of Type II keeps
    its A and B intensities in every sample. *)
Theorem dye_bias_leaves_other_types (probes : ProbesTable)
    (controls : list ControlRow) (controls_grn controls_red A B : matrix)
    (i j : nat) (r0 : ProbeRow) :
  (i < List.length (p_rows probes))%nat ->
  ptype (nth i (p_rows probes) r0) <> "II"%string ->
  nth i (nth j (fst (dye_bias probes controls controls_grn controls_red A B)) []) NaN
  = nth i (nth j A []) NaN /\
  nth i (nth j (snd (dye_bias probes controls controls_grn controls_red A B)) []) NaN
  = nth i (nth j B []) NaN.
Proof.
  intros Hi Ht. unfold dye_bias.
  apply dye_bias_keeps_other_types.
  rewrite (type_mask_nth probes "II" i r0 Hi).
  now apply String.eqb_neq.
Qed.

Lemma dye_bias_leaves_other_types_witness :
  nth 0 (nth 1 (fst (dye_bias probes_IGrn controls_norm norm_grn norm_red
                       ones_II ones_II)) []) NaN
  = nth 0 (nth 1 ones_II []) NaN.
Proof.
  refine (proj1 (dye_bias_leaves_other_types probes_IGrn controls_norm norm_grn
                   norm_red ones_II ones_II 0 1 (probe "" "" "" 0 0)
                   (Nat.lt_0_succ 0) _)).
  simpl. discriminate.
Defined.

(** X13.  Through the dye-bias loop a Type II cell of any sample is
    multiplied, in turn, by the factor of every sample: the A intensity by
    the red factors, the B intensity by the green factors. *)
Theorem dye_bias_multiplies_by_every_factor (probes : ProbesTable)
    (controls : list ControlRow) (controls_grn controls_red A B : matrix)
    (i j : nat) (r0 : ProbeRow) :
  (i < List.length (p_rows probes))%nat ->
  ptype (nth i (p_rows probes) r0) = "II"%string ->
  (j < List.length A)%nat -> (i < List.length (nth j A []))%nat ->
  (j < List.length B)%nat -> (i < List.length (nth j B []))%nat ->
  nth i (nth j (fst (dye_bias probes controls controls_grn controls_red A B)) []) NaN
  = fold_left mul
      (map (fun c => snd (corrections controls (fst c) (snd c)))
           (combine controls_grn controls_red))
      (nth i (nth j A []) NaN) /\
  nth i (nth j (snd (dye_bias probes controls controls_grn controls_red A B)) []) NaN
  = fold_left mul
      (map (fun c => fst (corrections controls (fst c) (snd c)))
           (combine controls_grn controls_red))
      (nth i (nth j B []) NaN).
Proof.
  intros Hi Ht HjA HiA HjB HiB. unfold dye_bias.
  apply dye_bias_fold_product; trivial.
  rewrite (type_mask_nth probes "II" i r0 Hi), Ht. apply String.eqb_refl.
Qed.

Lemma dye_bias_multiplies_by_every_factor_witness :
  nth 0 (nth 0 (snd (dye_bias probes_II controls_norm norm_grn norm_red
                       ones_II ones_II)) []) NaN
  = fold_left mul
      (map (fun c => fst (corrections controls_norm (fst c) (snd c)))
           (combine norm_grn norm_red))
      (nth 0 (nth 0 ones_II []) NaN).
Proof.
  refine (proj2 (dye_bias_multiplies_by_every_factor probes_II controls_norm
                   norm_grn norm_red ones_II ones_II 0 0 (probe "" "" "" 0 0)
                   _ eq_refl _ _ _ _)); simpl; lia.
Defined.

(** X14.  When the two factors of every sample are exactly 1.0, the
    dye-bias loop returns the two intensity matrices as they were. *)
Theorem dye_bias_unit_factors (probes : ProbesTable) (controls : list ControlRow)
    (controls_grn controls_red A B : matrix) :
  Forall (fun c => corrections controls (fst c) (snd c) = (Fin 1, Fin 1))
         (combine controls_grn controls_red) ->
  dye_bias probes controls controls_grn controls_red A B = (A, B).
Proof.
  unfold dye_bias. induction 1 as [|c cc Hc _ IH]; simpl; [reflexivity|].
  now rewrite (dye_bias_body_factors_one probes controls A B c Hc).
Qed.

Lemma corrections_balanced :
  corrections controls_norm [Fin 2] [Fin 2] = (Fin 1, Fin 1).
Proof.
  unfold corrections, map2, series_mean. cbn. rdecide. cbn. rdecide. cbn.
  replace ((0 + (0 + 2 + 2) / (1 + 1) / 2) / 1) with 1 by lra.
  rdecide. reflexivity.
Qed.

Lemma dye_bias_unit_factors_witness :
  dye_bias probes_II controls_norm [[Fin 2]] [[Fin 2]] [[Fin 7]] [[Fin 9]]
  = ([[Fin 7]], [[Fin 9]]).
Proof.
  apply dye_bias_unit_factors. simpl. constructor; [|constructor].
  exact corrections_balanced.
Defined.

(** ** Missingness on chromosome Y, all inputs *)

Lemma isna_mean_range (l : column) :
  isna_mean l = NaN \/ exists q, isna_mean l = Fin q /\ 0 <= q <= 1.
Proof.
  destruct l as [|x l]; [now left|]. right.
  set (n := List.length (x :: l)).
  set (k := List.length (filter isnan (x :: l))).
  exists (INR k / INR n). split; [reflexivity|].
  assert (Hn : 0 < INR n) by (apply lt_0_INR; unfold n; simpl; lia).
  assert (Hk : 0 <= INR k) by apply pos_INR.
  assert (Hkn : INR k <= INR n) by (apply le_INR, filter_length_le).
  split.
  - apply Rmult_le_pos; [assumption|]. left. now apply Rinv_0_lt_compat.
  - apply Rmult_le_reg_r with (INR n); [assumption|].
    unfold Rdiv. rewrite Rmult_assoc, Rinv_l by lra. lra.
Qed.

(** X15.  [missing_chrY] is either missing or a number between 0 and 1, and
    it is missing when the manifest has no probe on chromosome Y. *)
Theorem missing_chrY_range (probes : ProbesTable) (dnam_col : column) :
  (missing_chrY probes dnam_col = NaN \/
   exists q, missing_chrY probes dnam_col = Fin q /\ 0 <= q <= 1) /\
  ((forall r, In r (p_rows probes) -> chr r <> "Y"%string) ->
   missing_chrY probes dnam_col = NaN).
Proof.
  split; [apply isna_mean_range|].
  intro H. unfold missing_chrY, idy.
  assert (E : filter (fun r => String.eqb (chr r) "Y") (p_rows probes) = []).
  { induction (p_rows probes) as [|r rows IH]; [reflexivity|]. simpl.
    destruct (String.eqb_spec (chr r) "Y") as [Hy|_].
    - exfalso. apply (H r); [now left | assumption].
    - apply IH. intros r' Hr'. apply H. now right. }
  now rewrite E.
Qed.

Lemma missing_chrY_range_witness :
  missing_chrY probes_IGrn [Fin (1 / 2)] = NaN.
Proof.
  apply (proj2 (missing_chrY_range probes_IGrn [Fin (1 / 2)])).
  intros r [<-|[]]. simpl. discriminate.
Defined.

(** ** Control intensities *)

Lemma filter_address_notin (a : Z) (data : BeadTable) :
  ~ In a (map sample_id data) ->
  filter (fun r => Z.eqb (sample_id r) a) data = [].
Proof.
  induction data as [|r data IH]; intro H; simpl; [reflexivity|].
  simpl in H. destruct (Z.eqb_spec (sample_id r) a) as [E|_]; [tauto|].
  apply IH. tauto.
Qed.

Lemma filter_address_unique (a : Z) (data : BeadTable) :
  NoDup (map sample_id data) ->
  filter (fun r => Z.eqb (sample_id r) a) data
  = match find (fun r => Z.eqb (sample_id r) a) data with
    | Some r => [r]
    | None => []
    end.
Proof.
  induction data as [|r data IH]; intro H; simpl; [reflexivity|].
  simpl in H. apply NoDup_cons_iff in H as [Hnot Hnd].
  destruct (Z.eqb_spec (sample_id r) a) as [E|_].
  - f_equal. apply filter_address_notin. now rewrite <- E.
  - now apply IH.
Qed.

Lemma find_address_In (a : Z) (data : BeadTable) :
  In a (map sample_id data) ->
  exists r, find (fun r => Z.eqb (sample_id r) a) data = Some r.
Proof.
  induction data as [|r data IH]; intro H; [contradiction|]. simpl.
  destruct (Z.eqb_spec (sample_id r) a) as [E|Hne]; [eauto|].
  apply IH. destruct H as [H|H]; [contradiction | assumption].
Qed.

(** X16.  When the control beads have distinct addresses and the addresses
    of the bead table are distinct and hold every control bead, a control
    column is rebuilt bead by bead from the row at
    the bead's address: the channel mean if the channel counted at least
    one bead, missing otherwise. *)
Theorem fill_controls_by_address (count : BeadRow -> Z) (mean : BeadRow -> float64)
    (controls : list ControlRow) (data : BeadTable) (col : column) :
  NoDup (map c_address controls) ->
  NoDup (map sample_id data) ->
  List.length col = List.length controls ->
  (forall c, In c controls -> In (c_address c) (map sample_id data)) ->
  fill_controls count mean controls data col
  = Ok (map (fun c =>
               match find (fun r => Z.eqb (sample_id r) (c_address c)) data with
               | Some r => where_pos (count r) (mean r)
               | None => NaN
               end)
            controls).
Proof.
  intros _ Hnd Hlen Hin. unfold fill_controls, dataa_loc.
  rewrite (for_each_ok _
             (fun a => match find (fun r => Z.eqb (sample_id r) a) data with
                       | Some r => [r]
                       | None => []
                       end)).
  - simpl.
    assert (E : List.concat
                  (map (fun a => match find (fun r => Z.eqb (sample_id r) a) data with
                                 | Some r => [r]
                                 | None => []
                                 end)
                       (map c_address controls))
                = map (fun c =>
                         match find (fun r => Z.eqb (sample_id r) (c_address c)) data with
                         | Some r => r
                         | None => bead 0 0 0 0
                         end)
                      controls).
    { clear Hlen. induction controls as [|c controls IH]; [reflexivity|]. simpl.
      destruct (find_address_In (c_address c) data) as [r ->];
        [apply Hin; now left|].
      simpl. f_equal. apply IH. intros c' Hc'. apply Hin. now right. }
    rewrite E, length_map, Hlen, Nat.eqb_refl, map_map. f_equal.
    apply map_ext_in. intros c Hc.
    destruct (find_address_In (c_address c) data (Hin c Hc)) as [r ->].
    reflexivity.
  - intros a Ha. apply in_map_iff in Ha as (c & <- & Hc).
    rewrite (filter_address_unique _ _ Hnd).
    destruct (find_address_In (c_address c) data (Hin c Hc)) as [r ->].
    reflexivity.
Qed.

Lemma fill_controls_by_address_witness :
  fill_controls grn_n grn_mean controls_neg data_neg_missing [NaN; NaN]
  = Ok [NaN; NaN].
Proof.
  refine (fill_controls_by_address grn_n grn_mean controls_neg data_neg_missing
            [NaN; NaN] _ _ eq_refl _).
  - simpl. repeat constructor; simpl; intuition discriminate.
  - simpl. repeat constructor; simpl; intuition discriminate.
  - intros c [<-|[<-|[]]]; simpl; tauto.
Defined.

(** X17.  A control bead whose address is in no row of the bead table stops
    the rebuilding of a control column on [KeyError]. *)
Theorem fill_controls_missing_address (count : BeadRow -> Z)
    (mean : BeadRow -> float64) (controls : list ControlRow) (data : BeadTable)
    (col : column) (c : ControlRow) :
  In c controls -> ~ In (c_address c) (map sample_id data) ->
  fill_controls count mean controls data col = Raise KeyError.
Proof.
  intros Hc Hnot. unfold fill_controls, dataa_loc.
  rewrite (for_each_raises _ _ (c_address c) KeyError).
  - reflexivity.
  - now apply in_map.
  - now rewrite filter_address_notin.
  - intros a e _ H.
    destruct (filter (fun r => Z.eqb (sample_id r) a) data); congruence.
Qed.

Lemma fill_controls_missing_address_witness :
  fill_controls grn_n grn_mean controls_neg data_II [NaN; NaN] = Raise KeyError.
Proof.
  refine (fill_controls_missing_address grn_n grn_mean controls_neg data_II
            [NaN; NaN] (control 21 "NEGATIVE" "Negative 1") _ _).
  - simpl. tauto.
  - simpl. intuition discriminate.
Defined.

(** ** SNP coordinates *)

Import Snps.

Lemma half_pi_neq_0 : PI / 2 <> 0.
Proof. pose proof PI2_RGT_0. lra. Qed.

Lemma theta_of_angle (a b : float64) (t : R) :
  arctan2 b a = Fin t -> theta a b = Fin (t / (PI / 2)).
Proof.
  intro H. unfold theta. rewrite H. simpl.
  rewrite Reqb_false by lra. simpl.
  now rewrite (Reqb_false _ _ half_pi_neq_0).
Qed.

Lemma arctan2_cases (a b : float64) :
  (arctan2 b a = NaN /\ (isnan a = true \/ isnan b = true)) \/
  (exists t, arctan2 b a = Fin t /\ isnan a = false /\ isnan b = false).
Proof.
  destruct a as [| | |x], b as [| | |y]; simpl;
    try (left; split; [reflexivity | tauto]);
    try (right; eexists; repeat split; reflexivity).
  right. destruct (Rltb y 0); eexists; repeat split; reflexivity.
Qed.

Lemma atan2_quadrant (x y : R) :
  0 <= x -> 0 <= y -> 0 <= atan2 y x <= PI / 2.
Proof.
  intros Hx Hy. pose proof PI2_RGT_0 as Hpi. unfold atan2, Rltb.
  destruct (Rlt_dec 0 x) as [Hx0|Hx0].
  - assert (Hq : 0 <= y / x).
    { apply Rmult_le_pos; [assumption|]. left. now apply Rinv_0_lt_compat. }
    pose proof (atan_bound (y / x)) as [_ Hub].
    split; [|lra].
    destruct Hq as [Hq|<-]; [|rewrite atan_0; lra].
    pose proof (atan_increasing 0 (y / x) Hq) as Hinc.
    rewrite atan_0 in Hinc. lra.
  - destruct (Rlt_dec x 0); [lra|].
    destruct (Rlt_dec 0 y); [lra|].
    destruct (Rlt_dec y 0); lra.
Qed.

(** X18.  A theta coordinate is missing exactly when one of the two
    intensities is missing.  For two finite non-negative intensities it
    lies between 0 and 1; in particular two zero intensities give 0, not a
    missing value. *)
Theorem theta_range :
  (forall a b : float64,
      isnan (theta a b) = true <-> isnan a = true \/ isnan b = true) /\
  (forall x y : R, 0 <= x -> 0 <= y ->
      exists q, theta (Fin x) (Fin y) = Fin q /\ 0 <= q <= 1) /\
  theta (Fin 0) (Fin 0) = Fin 0.
Proof.
  split; [|split].
  - intros a b.
    destruct (arctan2_cases a b) as [[E H]|(t & E & Ha & Hb)].
    + unfold theta. rewrite E. simpl. tauto.
    + rewrite (theta_of_angle _ _ _ E), Ha, Hb. simpl.
      split; [discriminate | intros [H|H]; discriminate].
  - intros x y Hx Hy.
    exists (atan2 y x / (PI / 2)).
    split; [now apply theta_of_angle|].
    pose proof (atan2_quadrant x y Hx Hy) as [Hlo Hhi].
    pose proof PI2_RGT_0 as Hpi.
    split.
    + apply Rmult_le_pos; [assumption|]. left. now apply Rinv_0_lt_compat.
    + apply Rmult_le_reg_r with (PI / 2); [assumption|].
      unfold Rdiv at 1. rewrite Rmult_assoc, Rinv_l by lra. lra.
  - rewrite (theta_of_angle _ _ 0).
    + f_equal. unfold Rdiv. apply Rmult_0_l.
    + simpl. f_equal. unfold atan2. now rewrite !Rltb_false by lra.
Qed.

Lemma theta_range_witness :
  (exists q, theta (Fin 3) (Fin 4) = Fin q /\ 0 <= q <= 1) /\
  isnan (theta NaN (Fin 4)) = true.
Proof.
  destruct theta_range as (Hnan & Hrange & _).
  split.
  - apply Hrange; lra.
  - apply Hnan. now left.
Defined.

Lemma filter_map_commute {A B : Type} (f : B -> bool) (g : A -> B) (l : list A) :
  filter f (map g l) = map g (filter (fun x => f (g x)) l).
Proof.
  induction l as [|x l IH]; simpl; [reflexivity|].
  destruct (f (g x)); simpl; now rewrite IH.
Qed.

(** X19.  With distinct probe identifiers, a sample column of [snps] holds,
    for the probes whose identifier contains ["rs"] and in manifest order,
    the theta coordinate of the probe's own A and B intensities. *)
Theorem snps_column_rows (probes : ProbesTable) (a b : column) :
  NoDup (map probe_id (p_rows probes)) ->
  List.length a = List.length (p_rows probes) ->
  List.length b = List.length (p_rows probes) ->
  snps_column probes a b
  = map2 theta
      (select (map (fun r => contains "rs" (probe_id r)) (p_rows probes)) a)
      (select (map (fun r => contains "rs" (probe_id r)) (p_rows probes)) b).
Proof.
  intros Hnd Ha Hb. unfold snps_column, snp_ids.
  rewrite filter_map_commute.
  pose proof (loc_ids_mask (fun r => contains "rs" (probe_id r)) (p_rows probes)
                [] [] a Hnd eq_refl Ha) as HA.
  pose proof (loc_ids_mask (fun r => contains "rs" (probe_id r)) (p_rows probes)
                [] [] b Hnd eq_refl Hb) as HB.
  cbn [app] in HA, HB. now rewrite HA, HB.
Qed.

Lemma snps_column_rows_witness :
  snps_column probes_snp [Fin 3; Fin 1] [Fin 4; Fin 1] = [theta (Fin 3) (Fin 4)].
Proof.
  refine (snps_column_rows probes_snp [Fin 3; Fin 1] [Fin 4; Fin 1] _ eq_refl eq_refl).
  simpl. repeat constructor; simpl; intuition discriminate.
Defined.

(** ** The radius branch of the copy under [CH3/] *)

Lemma find_column_none (k : string) (sample_ids : list string) (M : matrix) :
  ~ In k sample_ids ->
  find (fun cl : string * column => String.eqb (fst cl) k) (combine sample_ids M)
  = None.
Proof.
  revert M. induction sample_ids as [|s sample_ids IH]; intros M H; [reflexivity|].
  destruct M as [|col M]; [reflexivity|]. simpl.
  simpl in H. destruct (String.eqb_spec s k) as [E|_]; [tauto|].
  apply IH. tauto.
Qed.

(** X20.  In the copy under [CH3/], when there is at least one sample and a
    chromosome X probe whose identifier is not a sample identifier, a call
    with [return_snps_r] set and [return_intensities] unset stops on
    [KeyError]. *)
Theorem snps_r_raises_key_error (S C N M : Type) (probes : ProbesTable)
    (sample_ids : list string) (intensities : matrix) (r : ProbeRow)
    (samples : S) (cpgs : C) (snps : N) (A B cr cg : M) :
  sample_ids <> [] ->
  In r (p_rows probes) -> chr r = "X"%string ->
  ~ In (probe_id r) sample_ids ->
  CH3.return_stage false true sample_ids intensities
    (CH3.final_idx probes sample_ids) samples cpgs snps A B cr cg
  = Raise KeyError.
Proof.
  intros Hs Hr Hx Hnot. unfold CH3.return_stage, CH3.snps_r, CH3.getitem_columns.
  rewrite (for_each_raises _ _ (probe_id r) KeyError).
  - reflexivity.
  - unfold CH3.final_idx. destruct sample_ids; [contradiction|].
    apply in_map, filter_In. split; [assumption|].
    rewrite Hx. apply String.eqb_refl.
  - now rewrite find_column_none.
  - intros k e _ H. destruct (find _ _); congruence.
Qed.

Lemma snps_r_raises_key_error_witness :
  CH3.return_stage false true ["s1"%string] [[Fin 7; Fin 2]]
    (CH3.final_idx probes_snp ["s1"%string]) tt tt tt tt tt tt tt
  = Raise KeyError.
Proof.
  refine (snps_r_raises_key_error unit unit unit unit probes_snp ["s1"%string]
            [[Fin 7; Fin 2]] (probe "cg3" "X" "II" 3 0) tt tt tt tt tt tt tt
            _ _ eq_refl _).
  - discriminate.
  - simpl. tauto.
  - simpl. intuition discriminate.
Defined.

(** ** Shapes and alignment *)

Import Shapes.

Lemma nan_matrix_shape (nrows ncols : nat) : has_shape nrows ncols (nan_matrix nrows ncols).
Proof.
  unfold has_shape, nan_matrix. split; [apply repeat_length|].
  apply Forall_forall. intros col H. apply repeat_spec in H as ->.
  apply repeat_length.
Qed.

Lemma fill_A_length (min_beads : Z) (probes : ProbesTable) (data : BeadTable)
    (col col' : column) :
  fill_A min_beads probes data col = Ok col' -> List.length col' = List.length col.
Proof.
  unfold fill_A. intro H.
  invert_bind_as H g Eg. invert_bind_as H r Er. invert_bind_as H t Et.
  injection H as <-. now rewrite !length_assign_where.
Qed.

Lemma fill_B_length (min_beads : Z) (probes : ProbesTable) (data : BeadTable)
    (col col' : column) :
  fill_B min_beads probes data col = Ok col' -> List.length col' = List.length col.
Proof.
  unfold fill_B. intro H.
  invert_bind_as H g Eg. invert_bind_as H r Er. invert_bind_as H t Et.
  injection H as <-. now rewrite !length_assign_where.
Qed.

Lemma fill_controls_length (count : BeadRow -> Z) (mean : BeadRow -> float64)
    (controls : list ControlRow) (data : BeadTable) (col col' : column) :
  fill_controls count mean controls data col = Ok col' ->
  List.length col' = List.length col.
Proof.
  unfold fill_controls. intro H. invert_bind_as H rows Er.
  destruct (Nat.eqb_spec (List.length rows) (List.length col)) as [E|_];
    [|discriminate H].
  injection H as <-. now rewrite length_map.
Qed.

Lemma zip_columns_shape (body : BeadTable -> column -> result column)
    (M M' : matrix) (data_list : list BeadTable) (nrows ncols : nat) :
  (forall data col col', body data col = Ok col' ->
                         List.length col' = List.length col) ->
  zip_columns body M data_list = Ok M' ->
  has_shape nrows ncols M -> has_shape nrows ncols M'.
Proof.
  intro Hbody. revert M' data_list ncols.
  induction M as [|col M IH]; intros M' data_list ncols H [Hlen Hall].
  - simpl in H. injection H as <-. now split.
  - destruct data_list as [|data data_list].
    + simpl in H. injection H as <-. now split.
    + simpl in H. invert_bind_as H col' Ec. invert_bind_as H rest Er.
      injection H as <-.
      apply Forall_cons_iff in Hall as [Hc Hall].
      destruct (IH rest data_list (List.length M) Er (conj eq_refl Hall))
        as [Hlen' Hall'].
      split.
      * simpl in *. lia.
      * constructor; [|assumption]. rewrite (Hbody _ _ _ Ec). exact Hc.
Qed.

Lemma controls_loop_shape (count : BeadRow -> Z) (mean : BeadRow -> float64)
    (controls : list ControlRow) (M M' : matrix) (data_list : list BeadTable)
    (last st : option (float64 * float64)) (nrows ncols : nat) :
  controls_loop count mean controls M data_list last = Ok (M', st) ->
  has_shape nrows ncols M -> has_shape nrows ncols M'.
Proof.
  revert M' data_list last st ncols.
  induction M as [|col M IH]; intros M' data_list last st ncols H [Hlen Hall].
  - simpl in H. injection H as <- <-. now split.
  - destruct data_list as [|data data_list].
    + simpl in H. injection H as <- <-. now split.
    + simpl in H. invert_bind_as H col' Ec.
      destruct (controls_loop count mean controls M data_list
                  (Some (neg_stats controls col'))) as [[rest st']|] eqn:Er;
        [simpl in H | discriminate H].
      injection H as <- <-.
      apply Forall_cons_iff in Hall as [Hc Hall].
      destruct (IH rest data_list _ st' (List.length M) Er (conj eq_refl Hall))
        as [Hlen' Hall'].
      split.
      * simpl in *. lia.
      * constructor; [|assumption].
        rewrite (fill_controls_length _ _ _ _ _ _ Ec). exact Hc.
Qed.

Lemma scale_columns_shape (mask : list bool) (k : float64) (M : matrix)
    (nrows ncols : nat) :
  has_shape nrows ncols M -> has_shape nrows ncols (map (scale_where mask k) M).
Proof.
  intros [Hlen Hall]. split; [now rewrite length_map|].
  apply Forall_map. eapply Forall_impl; [|exact Hall].
  intros col Hc. simpl. now rewrite length_scale_where.
Qed.

Lemma dye_bias_shape (probes : ProbesTable) (controls : list ControlRow)
    (controls_grn controls_red A B : matrix) (nrows ncols : nat) :
  has_shape nrows ncols A -> has_shape nrows ncols B ->
  has_shape nrows ncols (fst (dye_bias probes controls controls_grn controls_red A B)) /\
  has_shape nrows ncols (snd (dye_bias probes controls controls_grn controls_red A B)).
Proof.
  unfold dye_bias. generalize (combine controls_grn controls_red) as cc.
  intro cc. revert A B.
  induction cc as [|c cc IH]; intros A B HA HB; [now split|].
  cbn [fold_left].
  change (dye_bias_body probes controls (A, B) c)
    with (map (scale_where (type_mask probes "II")
                 (snd (corrections controls (fst c) (snd c)))) A,
          map (scale_where (type_mask probes "II")
                 (fst (corrections controls (fst c) (snd c)))) B).
  apply IH; now apply scale_columns_shape.
Qed.

Lemma length_probes_index (probes : ProbesTable) :
  List.length (probes_index probes) = List.length (p_rows probes).
Proof.
  unfold probes_index. destruct (p_index probes);
    now rewrite length_map, ?length_seq.
Qed.

Lemma dnam_matrix_shape (index idx : list label) (A B : matrix) (nrows ncols : nat) :
  List.length index = nrows ->
  has_shape nrows ncols A -> has_shape nrows ncols B ->
  has_shape nrows ncols (dnam_matrix index idx A B).
Proof.
  intros Hi [HlA HA] [HlB HB]. unfold dnam_matrix. split.
  - rewrite length_map2.
    transitivity (Nat.min ncols ncols); [f_equal; assumption | apply Nat.min_id].
  - unfold map2 at 1. apply Forall_map, Forall_forall. intros [a b] Hab. simpl.
    rewrite Forall_forall in HA, HB.
    pose proof (HA a (in_combine_l _ _ _ _ Hab)) as Ha.
    pose proof (HB b (in_combine_r _ _ _ _ Hab)) as Hb.
    unfold dnam_column. rewrite length_map2, length_combine, length_map2. lia.
Qed.

(** What a run that returns has computed, stage by stage; the censor loops
    have left no trace. *)
Lemma ratios_inv (norm_ppf : float64 -> float64) (probes : ProbesTable)
    (controls : list ControlRow) (sample_ids : list string)
    (data_list : list BeadTable) (min_beads : Z) (detection : float64)
    (c : Pipeline.Computed) :
  Pipeline.ratios norm_ppf probes controls sample_ids data_list min_beads detection
  = Ok c ->
  exists (A0 B0 : matrix) (g r : matrix * option (float64 * float64)),
    zip_columns (fill_A min_beads probes)
      (nan_matrix (List.length (p_rows probes)) (List.length sample_ids)) data_list
    = Ok A0 /\
    zip_columns (fill_B min_beads probes)
      (nan_matrix (List.length (p_rows probes)) (List.length sample_ids)) data_list
    = Ok B0 /\
    controls_loop grn_n grn_mean controls
      (nan_matrix (List.length controls) (List.length sample_ids)) data_list None
    = Ok g /\
    controls_loop red_n red_mean controls
      (nan_matrix (List.length controls) (List.length sample_ids)) data_list None
    = Ok r /\
    p_index probes = RangeIndex /\
    Pipeline.controls_grn c = fst g /\
    Pipeline.controls_red c = fst r /\
    Pipeline.intensities_A c = fst (dye_bias probes controls (fst g) (fst r) A0 B0) /\
    Pipeline.intensities_B c = snd (dye_bias probes controls (fst g) (fst r) A0 B0) /\
    Pipeline.intensities c
    = map2 (map2 add_fill0) (Pipeline.intensities_A c) (Pipeline.intensities_B c) /\
    Pipeline.dnam c
    = dnam_matrix (map LInt (seq 0 (List.length (p_rows probes))))
        (map LStr (filter (contains "rs") (map probe_id (p_rows probes))))
        (Pipeline.intensities_A c) (Pipeline.intensities_B c).
Proof.
  unfold Pipeline.ratios. intro H.
  invert_bind_as H u Echeck.
  invert_bind_as H A EA. invert_bind_as H B EB.
  invert_bind_as H g Eg. invert_bind_as H r Er.
  invert_bind_as H ng Eng. invert_bind_as H nr Enr.
  rewrite !censor_loop_intensities in H.
  unfold set_index_unnamed0, probes_index in H.
  destruct (p_index probes) eqn:Hidx; [simpl in H | discriminate H].
  injection H as <-.
  exists A, B, g, r. repeat split.
Qed.

Lemma ratios_shapes (norm_ppf : float64 -> float64)
    (probes : ProbesTable) (controls : list ControlRow) (sample_ids : list string)
    (data_list : list BeadTable) (min_beads : Z) (detection : float64)
    (c : Pipeline.Computed) :
  Pipeline.ratios norm_ppf probes controls sample_ids data_list min_beads detection
  = Ok c ->
  has_shape (List.length (p_rows probes)) (List.length sample_ids)
    (Pipeline.intensities_A c) /\
  has_shape (List.length (p_rows probes)) (List.length sample_ids)
    (Pipeline.intensities_B c) /\
  has_shape (List.length (p_rows probes)) (List.length sample_ids)
    (Pipeline.dnam c) /\
  has_shape (List.length controls) (List.length sample_ids)
    (Pipeline.controls_grn c) /\
  has_shape (List.length controls) (List.length sample_ids)
    (Pipeline.controls_red c).
Proof.
  intro H.
  destruct (ratios_inv _ _ _ _ _ _ _ _ H)
    as (A0 & B0 & [Mg sg] & [Mr sr] & EA & EB & Eg & Er & Hidx
        & -> & -> & HA & HB & _ & Hd).
  pose proof (zip_columns_shape _ _ _ _ _ _ (fill_A_length min_beads probes) EA
                (nan_matrix_shape _ _)) as SA.
  pose proof (zip_columns_shape _ _ _ _ _ _ (fill_B_length min_beads probes) EB
                (nan_matrix_shape _ _)) as SB.
  destruct (dye_bias_shape probes controls Mg Mr A0 B0 _ _ SA SB) as [SA' SB'].
  simpl in HA, HB. rewrite <- HA in SA'. rewrite <- HB in SB'.
  split; [exact SA'|]. split; [exact SB'|]. split.
  - rewrite Hd. apply dnam_matrix_shape; trivial.
    now rewrite length_map, length_seq.
  - split.
    + exact (controls_loop_shape _ _ _ _ _ _ _ _ _ _ Eg (nan_matrix_shape _ _)).
    + exact (controls_loop_shape _ _ _ _ _ _ _ _ _ _ Er (nan_matrix_shape _ _)).
Qed.

(** X21.  In a run that returns, the two intensity matrices and the ratio
    matrix have one column per sample and one cell per probe in each
    column, and the two control matrices have one column per sample and one
    cell per control bead in each column. *)
Theorem output_matrices_are_aligned (norm_ppf : float64 -> float64)
    (probes : ProbesTable) (controls : list ControlRow) (sample_ids : list string)
    (data_list : list BeadTable) (min_beads : Z) (detection : float64)
    (c : Pipeline.Computed) :
  Pipeline.ratios norm_ppf probes controls sample_ids data_list min_beads detection
  = Ok c ->
  has_shape (List.length (p_rows probes)) (List.length sample_ids)
    (Pipeline.intensities_A c) /\
  has_shape (List.length (p_rows probes)) (List.length sample_ids)
    (Pipeline.intensities_B c) /\
  has_shape (List.length (p_rows probes)) (List.length sample_ids)
    (Pipeline.dnam c) /\
  has_shape (List.length controls) (List.length sample_ids)
    (Pipeline.controls_grn c) /\
  has_shape (List.length controls) (List.length sample_ids)
    (Pipeline.controls_red c).
Proof. apply ratios_shapes. Qed.

Lemma output_matrices_are_aligned_witness :
  exists c : Pipeline.Computed,
    Pipeline.ratios ppf_scenario probes_IGrn controls_neg ["s1"%string] [data_neg]
      3 (Fin (5 / 100)) = Ok c /\
    has_shape 1 1 (Pipeline.dnam c) /\
    has_shape 2 1 (Pipeline.controls_grn c).
Proof.
  destruct run_data_neg as (c & Hrun & _).
  exists c. split; [exact Hrun|].
  destruct (output_matrices_are_aligned _ _ _ _ _ _ _ _ Hrun)
    as (_ & _ & Hd & Hg & _).
  now split.
Defined.

Lemma has_shape_nth (nrows ncols : nat) (M : matrix) (j : nat) :
  has_shape nrows ncols M -> (j < ncols)%nat -> List.length (nth j M []) = nrows.
Proof.
  intros [Hlen Hall] Hj. rewrite Forall_forall in Hall.
  apply Hall, nth_In. lia.
Qed.

Lemma ratios_dnam_cell (norm_ppf : float64 -> float64)
    (probes : ProbesTable) (controls : list ControlRow) (sample_ids : list string)
    (data_list : list BeadTable) (min_beads : Z) (detection : float64)
    (c : Pipeline.Computed) (i j : nat) :
  Pipeline.ratios norm_ppf probes controls sample_ids data_list min_beads detection
  = Ok c ->
  (i < List.length (p_rows probes))%nat -> (j < List.length sample_ids)%nat ->
  nth i (nth j (Pipeline.dnam c) []) NaN
  = beta_value (nth i (nth j (Pipeline.intensities_A c) []) NaN)
               (nth i (nth j (Pipeline.intensities_B c) []) NaN).
Proof.
  intros H Hi Hj.
  destruct (ratios_shapes _ _ _ _ _ _ _ _ H) as (SA & SB & _).
  destruct (ratios_inv _ _ _ _ _ _ _ _ H)
    as (_ & _ & _ & _ & _ & _ & _ & _ & _ & _ & _ & _ & _ & _ & Hd).
  rewrite Hd. unfold dnam_matrix.
  rewrite <- (dnam_column_cell (List.length (p_rows probes))
                (filter (contains "rs") (map probe_id (p_rows probes)))
                (nth j (Pipeline.intensities_A c) [])
                (nth j (Pipeline.intensities_B c) []) i);
    trivial; try (eapply has_shape_nth; eassumption).
  f_equal.
  apply (nth_map2
           (fun a b : column =>
              dnam_column (map LInt (seq 0 (List.length (p_rows probes))))
                (map LStr (filter (contains "rs") (map probe_id (p_rows probes))))
                b (map2 add_fill0 a b))
           _ _ j [] [] []).
  - destruct SA as [E _]. now rewrite E.
  - destruct SB as [E _]. now rewrite E.
Qed.

(** X22.  In a run that returns, every cell of the ratio matrix, for every
    probe (the SNP probes included) and every sample, is the ratio
    [B / (A + B)], with a one-sided missing intensity counted as zero, of
    the cells of the two returned intensity matrices. *)
Theorem returned_ratio_of_returned_intensities (norm_ppf : float64 -> float64)
    (probes : ProbesTable) (controls : list ControlRow) (sample_ids : list string)
    (data_list : list BeadTable) (min_beads : Z) (detection : float64)
    (c : Pipeline.Computed) (i j : nat) :
  Pipeline.ratios norm_ppf probes controls sample_ids data_list min_beads detection
  = Ok c ->
  (i < List.length (p_rows probes))%nat -> (j < List.length sample_ids)%nat ->
  nth i (nth j (Pipeline.dnam c) []) NaN
  = beta_value (nth i (nth j (Pipeline.intensities_A c) []) NaN)
               (nth i (nth j (Pipeline.intensities_B c) []) NaN).
Proof. apply ratios_dnam_cell. Qed.

Lemma returned_ratio_of_returned_intensities_witness :
  exists c : Pipeline.Computed,
    Pipeline.ratios ppf_scenario probes_IGrn controls_neg ["s1"%string] [data_neg]
      3 (Fin (5 / 100)) = Ok c /\
    nth 0 (nth 0 (Pipeline.dnam c) []) NaN
    = beta_value (nth 0 (nth 0 (Pipeline.intensities_A c) []) NaN)
                 (nth 0 (nth 0 (Pipeline.intensities_B c) []) NaN).
Proof.
  destruct run_data_neg as (c & Hrun & _).
  exists c. split; [exact Hrun|].
  apply (returned_ratio_of_returned_intensities _ _ _ _ _ _ _ _ 0 0 Hrun);
    simpl; lia.
Defined.

(** ** Type I probes *)

Lemma zip_columns_nth (body : BeadTable -> column -> result column)
    (M M' : matrix) (data_list : list BeadTable) (j : nat) :
  zip_columns body M data_list = Ok M' -> (j < List.length M)%nat ->
  (exists data, nth_error data_list j = Some data /\
                body data (nth j M []) = Ok (nth j M' [])) \/
  (nth_error data_list j = None /\ nth j M' [] = nth j M []).
Proof.
  revert M' data_list j.
  induction M as [|col M IH]; intros M' data_list j H Hj; [simpl in Hj; lia|].
  destruct data_list as [|data data_list].
  - simpl in H. injection H as <-. right. split; [now destruct j | reflexivity].
  - simpl in H. invert_bind_as H col' Ec. invert_bind_as H rest Er.
    injection H as <-.
    destruct j as [|j]; simpl.
    + left. exists data. now split.
    + apply (IH rest data_list j Er). simpl in Hj. lia.
Qed.





(** ** The samples of the copy under [DNAm/] *)

Lemma nth_nan_matrix (nrows ncols j : nat) :
  (j < ncols)%nat -> nth j (nan_matrix nrows ncols) [] = repeat NaN nrows.
Proof.
  intro Hj. unfold nan_matrix.
  rewrite nth_indep with (d' := repeat NaN nrows) by now rewrite repeat_length.
  apply nth_repeat.
Qed.

Lemma zip_columns_same_table (body : BeadTable -> column -> result column)
    (data : BeadTable) (sample_ids : list string) (nrows : nat) (M' : matrix)
    (j j' : nat) :
  zip_columns body (nan_matrix nrows (List.length sample_ids))
    (map (fun _ => data) sample_ids) = Ok M' ->
  (j < List.length sample_ids)%nat -> (j' < List.length sample_ids)%nat ->
  nth j M' [] = nth j' M' [].
Proof.
  intros H Hj Hj'.
  assert (Hcol : forall k, (k < List.length sample_ids)%nat ->
                   body data (repeat NaN nrows) = Ok (nth k M' [])).
  { intros k Hk.
    destruct (zip_columns_nth _ _ _ _ k H) as [(d & Ed & Hb)|[Ed _]].
    - destruct (nan_matrix_shape nrows (List.length sample_ids)) as [-> _].
      exact Hk.
    - rewrite nth_nan_matrix in Hb by assumption.
      rewrite nth_error_map in Ed.
      destruct (nth_error sample_ids k); [|discriminate Ed].
      injection Ed as <-. exact Hb.
    - apply nth_error_None in Ed. rewrite length_map in Ed. lia. }
  pose proof (Hcol j Hj) as E. rewrite (Hcol j' Hj') in E.
  now injection E.
Qed.

Lemma dye_bias_fold_same_columns (probes : ProbesTable) (controls : list ControlRow)
    (cc : list (column * column)) (A B : matrix) (j j' : nat) :
  (j < List.length A)%nat -> (j' < List.length A)%nat ->
  (j < List.length B)%nat -> (j' < List.length B)%nat ->
  nth j A [] = nth j' A [] -> nth j B [] = nth j' B [] ->
  nth j (fst (fold_left (dye_bias_body probes controls) cc (A, B))) []
  = nth j' (fst (fold_left (dye_bias_body probes controls) cc (A, B))) [] /\
  nth j (snd (fold_left (dye_bias_body probes controls) cc (A, B))) []
  = nth j' (snd (fold_left (dye_bias_body probes controls) cc (A, B))) [].
Proof.
  revert A B.
  induction cc as [|c cc IH]; intros A B HjA HjA' HjB HjB' EA EB; [now split|].
  cbn [fold_left].
  change (dye_bias_body probes controls (A, B) c)
    with (map (scale_where (type_mask probes "II")
                 (snd (corrections controls (fst c) (snd c)))) A,
          map (scale_where (type_mask probes "II")
                 (fst (corrections controls (fst c) (snd c)))) B).
  apply IH; rewrite ?length_map; trivial;
    rewrite !nth_map_matrix by assumption; now f_equal.
Qed.

(** X1.  In the copy under [DNAm/] the one bead table fills every sample
    column: in a run that returns, any two samples have the same column in
    the two intensity matrices and in the ratio matrix. *)
Theorem DNAm_samples_are_identical (norm_ppf : float64 -> float64)
    (data : BeadTable) (probes : ProbesTable) (controls : list ControlRow)
    (sample_ids : list string) (min_beads : Z) (detection : float64)
    (c : Pipeline.Computed) (j j' : nat) :
  DNAm.preprocess_ratios norm_ppf data probes controls sample_ids min_beads detection
  = Ok c ->
  (j < List.length sample_ids)%nat -> (j' < List.length sample_ids)%nat ->
  nth j (Pipeline.intensities_A c) [] = nth j' (Pipeline.intensities_A c) [] /\
  nth j (Pipeline.intensities_B c) [] = nth j' (Pipeline.intensities_B c) [] /\
  nth j (Pipeline.dnam c) [] = nth j' (Pipeline.dnam c) [].
Proof.
  unfold DNAm.preprocess_ratios. intros H Hj Hj'.
  destruct (ratios_shapes _ _ _ _ _ _ _ _ H) as ([LA _] & [LB _] & _).
  destruct (ratios_inv _ _ _ _ _ _ _ _ H)
    as (A0 & B0 & g & r & EA & EB & _ & _ & _ & _ & _ & HA & HB & _ & Hd).
  pose proof (zip_columns_shape _ _ _ _ _ _ (fill_A_length min_beads probes) EA
                (nan_matrix_shape _ _)) as [LA0 _].
  pose proof (zip_columns_shape _ _ _ _ _ _ (fill_B_length min_beads probes) EB
                (nan_matrix_shape _ _)) as [LB0 _].
  destruct (dye_bias_fold_same_columns probes controls (combine (fst g) (fst r))
              A0 B0 j j') as [EA' EB'];
    rewrite ?LA0, ?LB0; trivial.
  { exact (zip_columns_same_table _ _ _ _ _ _ _ EA Hj Hj'). }
  { exact (zip_columns_same_table _ _ _ _ _ _ _ EB Hj Hj'). }
  fold (dye_bias probes controls (fst g) (fst r) A0 B0) in EA', EB'.
  rewrite <- HA in EA'. rewrite <- HB in EB'.
  split; [exact EA'|]. split; [exact EB'|].
  rewrite Hd. unfold dnam_matrix.
  rewrite !(nth_map2
              (fun a b : column =>
                 dnam_column (map LInt (seq 0 (List.length (p_rows probes))))
                   (map LStr (filter (contains "rs") (map probe_id (p_rows probes))))
                   b (map2 add_fill0 a b))
              _ _ _ [] [] []) by (rewrite ?LA, ?LB; assumption).
  now rewrite EA', EB'.
Qed.

Lemma DNAm_samples_are_identical_witness :
  exists c : Pipeline.Computed,
    DNAm.preprocess_ratios ppf_scenario data_neg probes_IGrn controls_neg
      ["s1"; "s2"]%string 3 (Fin (5 / 100)) = Ok c /\
    nth 0 (Pipeline.dnam c) [] = nth 1 (Pipeline.dnam c) [].
Proof.
  destruct (DNAm.preprocess_ratios ppf_scenario data_neg probes_IGrn controls_neg
              ["s1"; "s2"]%string 3 (Fin (5 / 100))) as [c|e] eqn:E.
  - exists c. split; [reflexivity|].
    refine (proj2 (proj2 (DNAm_samples_are_identical _ _ _ _ _ _ _ _ 0 1 E _ _)));
      simpl; lia.
  - exfalso. revert E.
    unfold DNAm.preprocess_ratios, Pipeline.ratios, Pipeline.check_arguments.
    cbn. rdecide. cbn. discriminate.
Defined.

(** ** Control descriptions *)

Lemma norm_red_mask_all (controls : list ControlRow) :
  norm_red_mask controls = repeat true (List.length controls).
Proof.
  unfold norm_red_mask, isin_match. rewrite map_map.
  induction controls as [|c controls IH]; simpl; [reflexivity|]. now rewrite IH.
Qed.

(** X24.  The descriptions of the control beads have no effect on the
    dye-bias correction: two control manifests with the same bead types, in
    the same order, give the same factors and the same corrected
    intensities. *)
Theorem dye_bias_ignores_descriptions (probes : ProbesTable)
    (controls controls' : list ControlRow) (controls_grn controls_red A B : matrix) :
  map c_type controls = map c_type controls' ->
  (forall cgrn cred, corrections controls cgrn cred = corrections controls' cgrn cred) /\
  dye_bias probes controls controls_grn controls_red A B
  = dye_bias probes controls' controls_grn controls_red A B.
Proof.
  intro Ht.
  assert (Hg : norm_grn_mask controls = norm_grn_mask controls').
  { unfold norm_grn_mask.
    rewrite <- (map_map c_type
                  (fun t => String.eqb t "NORM_C" || String.eqb t "NORM_G") controls).
    rewrite <- (map_map c_type
                  (fun t => String.eqb t "NORM_C" || String.eqb t "NORM_G") controls').
    now rewrite Ht. }
  assert (Hr : norm_red_mask controls = norm_red_mask controls').
  { rewrite !norm_red_mask_all. f_equal.
    rewrite <- (length_map c_type controls), Ht. apply length_map. }
  assert (Hc : forall cgrn cred,
             corrections controls cgrn cred = corrections controls' cgrn cred).
  { intros cgrn cred. unfold corrections. now rewrite Hg, Hr. }
  split; [exact Hc|].
  unfold dye_bias. generalize (combine controls_grn controls_red) as cc.
  intro cc. generalize (A, B) as AB.
  induction cc as [|c cc IH]; intro AB; [reflexivity|].
  cbn [fold_left]. rewrite IH. f_equal.
  unfold dye_bias_body. now rewrite Hc.
Qed.

Lemma dye_bias_ignores_descriptions_witness :
  dye_bias probes_II controls_norm norm_grn norm_red ones_II ones_II
  = dye_bias probes_II [control 31 "NORM_C" "Negative 1"] norm_grn norm_red
      ones_II ones_II.
Proof.
  exact (proj2 (dye_bias_ignores_descriptions probes_II controls_norm
                  [control 31 "NORM_C" "Negative 1"] norm_grn norm_red
                  ones_II ones_II eq_refl)).
Defined.

(** ** Samples without a bead table *)

Lemma fold_mul_nan (ks : list float64) : fold_left mul ks NaN = NaN.
Proof. induction ks as [|k ks IH]; simpl; [reflexivity | exact IH]. Qed.

(** X25.  [zip] stops at the shorter of the sample columns and the bead
    tables: in a run that returns, a sample that has no bead table of its
    own has every intensity and every ratio missing. *)
Theorem sample_without_bead_table_is_missing (norm_ppf : float64 -> float64)
    (probes : ProbesTable) (controls : list ControlRow) (sample_ids : list string)
    (data_list : list BeadTable) (min_beads : Z) (detection : float64)
    (c : Pipeline.Computed) (i j : nat) :
  Pipeline.ratios norm_ppf probes controls sample_ids data_list min_beads detection
  = Ok c ->
  (i < List.length (p_rows probes))%nat ->
  (List.length data_list <= j)%nat -> (j < List.length sample_ids)%nat ->
  nth i (nth j (Pipeline.intensities_A c) []) NaN = NaN /\
  nth i (nth j (Pipeline.intensities_B c) []) NaN = NaN /\
  nth i (nth j (Pipeline.dnam c) []) NaN = NaN.
Proof.
  intros H Hi Hshort Hj.
  destruct (ratios_inv _ _ _ _ _ _ _ _ H)
    as (A0 & B0 & g & r & EA & EB & _ & _ & _ & _ & _ & HA & HB & _).
  pose proof (nan_matrix_shape (List.length (p_rows probes)) (List.length sample_ids))
    as S.
  pose proof (zip_columns_shape _ _ _ _ _ _ (fill_A_length min_beads probes) EA S)
    as SA.
  pose proof (zip_columns_shape _ _ _ _ _ _ (fill_B_length min_beads probes) EB S)
    as SB.
  assert (HjM : (j < List.length (nan_matrix (List.length (p_rows probes))
                                   (List.length sample_ids)))%nat)
    by (destruct S as [-> _]; assumption).
  assert (Hnone : nth_error data_list j = None) by now apply nth_error_None.
  assert (EA0 : nth j A0 [] = repeat NaN (List.length (p_rows probes))).
  { destruct (zip_columns_nth _ _ _ _ j EA HjM) as [(d & Ed & _)|[_ ->]];
      [congruence | now apply nth_nan_matrix]. }
  assert (EB0 : nth j B0 [] = repeat NaN (List.length (p_rows probes))).
  { destruct (zip_columns_nth _ _ _ _ j EB HjM) as [(d & Ed & _)|[_ ->]];
      [congruence | now apply nth_nan_matrix]. }
  assert (Hcell : forall n, nth i (repeat NaN n) NaN = NaN)
    by (intro n; apply nth_repeat).
  assert (E : nth i (nth j (Pipeline.intensities_A c) []) NaN = NaN /\
              nth i (nth j (Pipeline.intensities_B c) []) NaN = NaN).
  { rewrite HA, HB. unfold dye_bias.
    destruct (nth i (type_mask probes "II") false) eqn:Hm.
    - assert (HjA : (j < List.length A0)%nat) by (destruct SA as [-> _]; exact Hj).
      assert (HjB : (j < List.length B0)%nat) by (destruct SB as [-> _]; exact Hj).
      assert (HiA : (i < List.length (nth j A0 []))%nat)
        by now rewrite (has_shape_nth _ _ _ j SA Hj).
      assert (HiB : (i < List.length (nth j B0 []))%nat)
        by now rewrite (has_shape_nth _ _ _ j SB Hj).
      destruct (dye_bias_fold_product probes controls (combine (fst g) (fst r))
                  A0 B0 i j Hm HjA HiA HjB HiB) as [-> ->].
      now rewrite EA0, EB0, !Hcell, !fold_mul_nan.
    - destruct (dye_bias_keeps_other_types probes controls
                  (combine (fst g) (fst r)) A0 B0 i j Hm) as [-> ->].
      now rewrite EA0, EB0, !Hcell. }
  destruct E as [E1 E2]. split; [exact E1|]. split; [exact E2|].
  rewrite (ratios_dnam_cell _ _ _ _ _ _ _ _ _ _ H Hi Hj), E1, E2.
  reflexivity.
Qed.

Lemma sample_without_bead_table_is_missing_witness :
  exists c : Pipeline.Computed,
    CH3.preprocess_ratios ppf_scenario (p_rows probes_IGrn) controls_neg
      ["s1"; "s2"]%string [data_neg] 3 (Fin (5 / 100)) = Ok c /\
    nth 0 (nth 1 (Pipeline.dnam c) []) NaN = NaN.
Proof.
  destruct (CH3.preprocess_ratios ppf_scenario (p_rows probes_IGrn) controls_neg
              ["s1"; "s2"]%string [data_neg] 3 (Fin (5 / 100))) as [c|e] eqn:E.
  - exists c. split; [reflexivity|].
    refine (proj2 (proj2 (sample_without_bead_table_is_missing _ _ _ _ _ _ _ _ 0 1
                            E _ _ _))); simpl; lia.
  - exfalso. revert E.
    unfold CH3.preprocess_ratios, Pipeline.ratios, Pipeline.check_arguments.
    cbn. rdecide. cbn. discriminate.
Defined.
